(** * Shallow embedding of the Daxa safe loader and the Pebblo utilities

    Sources:
    - [langchain_community/utilities/pebblo.py]: loader type tables,
      [get_full_path], [get_loader_type], [get_loader_full_path], the
      [Doc] and [App] schemas;
    - [langchain_community/document_loaders/daxa.py]: [DaxaSafeLoader].

    Python exceptions become the [Err] branch of a result type; the
    process-level effects (file system, HTTP calls, class attributes,
    uuid4) are threaded through an explicit world record. *)

From Stdlib Require Import String Ascii List Bool ZArith Lia.
Import ListNotations.
Open Scope string_scope.
Open Scope list_scope.
Set Warnings "-register-all".

(* ------------------------------------------------------------------ *)
(** ** String helpers with Python's semantics *)

(** [s.split(c)] for a one-character separator. *)
Fixpoint split_on (c : ascii) (s : string) : list string :=
  match s with
  | EmptyString => [EmptyString]
  | String a rest =>
      if Ascii.eqb a c then EmptyString :: split_on c rest
      else match split_on c rest with
           | w :: ws => String a w :: ws
           | [] => [String a EmptyString]
           end
  end.

(** [sep.join(l)]. *)
Fixpoint join_with (sep : string) (l : list string) : string :=
  match l with
  | [] => ""
  | [w] => w
  | w :: ws => (w ++ sep ++ join_with sep ws)%string
  end.

(** [needle in hay] for strings. *)
Fixpoint str_contains (needle hay : string) : bool :=
  String.prefix needle hay ||
  match hay with
  | EmptyString => false
  | String _ rest => str_contains needle rest
  end.

(** [x in l] for a list of strings. *)
Definition str_in (x : string) (l : list string) : bool :=
  existsb (String.eqb x) l.

(** Last element of a Python list ([l[-1]]), for non-empty lists. *)
Definition last_str (l : list string) : string := last l "".

(** [c in s] for a character. *)
Fixpoint has_char (c : ascii) (s : string) : bool :=
  match s with
  | EmptyString => false
  | String a s' => Ascii.eqb a c || has_char c s'
  end.

(* ------------------------------------------------------------------ *)
(** ** Loader type tables ([pebblo.py], lines 21-50) *)

Definition file_loader : list string :=
  [ "JSONLoader"; "S3FileLoader"; "UnstructuredMarkdownLoader";
    "UnstructuredPDFLoader"; "UnstructuredFileLoader";
    "UnstructuredJsonLoader"; "PyPDFLoader"; "GCSFileLoader";
    "AmazonTextractPDFLoader"; "CSVLoader"; "UnstructuredExcelLoader";
    "UnstructuredEmailLoader" ].

Definition dir_loader : list string :=
  [ "DirectoryLoader"; "S3DirLoader"; "SlackDirectoryLoader";
    "PyPDFDirectoryLoader"; "NotionDirectoryLoader" ].

Definition in_memory : list string := [ "DataFrameLoader" ].

Definition remote_db : list string := [ "NotionDBLoader"; "GoogleDriveLoader" ].

(** The dict literal, in its insertion (= iteration) order. *)
Definition LOADER_TYPE_MAPPING : list (string * list string) :=
  [ ("file", file_loader); ("dir", dir_loader);
    ("in-memory", in_memory); ("remote_db", remote_db) ].

(** The [for loader_type, loaders in mapping.items()] loop. *)
Fixpoint first_loader_type (loader : string) (m : list (string * list string))
  : string :=
  match m with
  | [] => "unknown"
  | (loader_type, loaders) :: rest =>
      if str_in loader loaders then loader_type
      else first_loader_type loader rest
  end.

Definition get_loader_type (loader : string) : string :=
  first_loader_type loader LOADER_TYPE_MAPPING.

(** [SUPPORTED_LOADERS] (line 50): the four lists concatenated. *)
Definition SUPPORTED_LOADERS : list string :=
  file_loader ++ dir_loader ++ in_memory ++ remote_db.

(* ------------------------------------------------------------------ *)
(** ** Exceptions and results *)

Inductive exn : Type :=
| NameError (msg : string)
| NotImplementedError (msg : string)
| UnboundLocalError (var : string)
| TypeError (msg : string)
| OSError (msg : string)
| KeyError (key : string)
| AttributeError (name : string)
| IndexError (msg : string)
| ValidationError (fields : list string)
| RuntimeError (msg : string)
| RequestException (msg : string)
| JSONDecodeError.

Inductive result (A : Type) : Type :=
| Ok (a : A)
| Err (e : exn).
Arguments Ok {A} a.
Arguments Err {A} e.

Definition rbind {A B} (r : result A) (k : A -> result B) : result B :=
  match r with
  | Ok a => k a
  | Err e => Err e
  end.

Notation "x <- r ;; k" := (rbind r (fun x => k))
  (at level 61, r at next level, right associativity).

(* ------------------------------------------------------------------ *)
(** ** File system

    A directory tree.  Each node carries what the code reads of it:
    [st_size] and [st_uid] of a regular file, [st_uid] of a directory,
    the target of a symbolic link. *)

Inductive node : Type :=
| NFile (size : Z) (uid : Z)
| NDir (uid : Z) (entries : list (string * node))
| NLink (target : string).

Fixpoint find_entry (name : string) (es : list (string * node)) : option node :=
  match es with
  | [] => None
  | (n, c) :: es' => if String.eqb n name then Some c else find_entry name es'
  end.

(** [lstat] of a path given as components from the root: descends
    through directories only, never through a link. *)
Fixpoint lookup (n : node) (cs : list string) : option node :=
  match cs with
  | [] => Some n
  | c :: cs' =>
      match n with
      | NDir _ es =>
          match find_entry c es with
          | Some n' => lookup n' cs'
          | None => None
          end
      | _ => None
      end
  end.

Definition is_abs (s : string) : bool :=
  match s with
  | String c _ => Ascii.eqb c "/"%char
  | EmptyString => false
  end.

(** [os.path.realpath] (non-strict, used by [pathlib.Path.resolve]):
    components are consumed left to right from the physical path [cur];
    "" and "." are skipped, ".." drops the last component, a link is
    replaced by the resolution of its target.  [fuel] bounds the depth
    of nested link expansions; when it is spent the rest is appended
    unresolved, as realpath does on a link loop. *)
Fixpoint resolve_comps (fuel : nat) (root : node) (cur rest : list string)
  {struct fuel} : list string :=
  match fuel with
  | O => cur ++ rest
  | S f =>
      (fix go (cur rest : list string) : list string :=
         match rest with
         | [] => cur
         | c :: rest' =>
             if String.eqb c "" || String.eqb c "." then go cur rest'
             else if String.eqb c ".." then go (removelast cur) rest'
             else
               let np := cur ++ [c] in
               match lookup root np with
               | Some (NLink t) =>
                   go (resolve_comps f root (if is_abs t then [] else cur)
                         (split_on "/"%char t)) rest'
               | _ => go np rest'
               end
         end) cur rest
  end.

(** Whether the resolution of [resolve_comps] gives up on a link, its
    nested expansions running out of fuel: a symbolic link loop (a
    chain of more than [LINK_FUEL] nested links counts as one).  The
    recursion is the one of [resolve_comps]. *)
Fixpoint resolve_loops (fuel : nat) (root : node) (cur rest : list string)
  {struct fuel} : bool :=
  match fuel with
  | O => true
  | S f =>
      (fix go (cur rest : list string) : bool :=
         match rest with
         | [] => false
         | c :: rest' =>
             if String.eqb c "" || String.eqb c "." then go cur rest'
             else if String.eqb c ".." then go (removelast cur) rest'
             else
               let np := cur ++ [c] in
               match lookup root np with
               | Some (NLink t) =>
                   let base := if is_abs t then [] else cur in
                   resolve_loops f root base (split_on "/"%char t)
                   || go (resolve_comps f root base (split_on "/"%char t)) rest'
               | _ => go np rest'
               end
         end) cur rest
  end.

(** Depth of nested link expansions followed. *)
Definition LINK_FUEL : nat := 40.

(** Absolute path string of a component list. *)
Definition render (cs : list string) : string := ("/" ++ join_with "/" cs)%string.

(** The process's view of the file system: tree and working directory
    (a physical path, as [os.getcwd()] returns it). *)
Record fsys : Type := mkFs { fs_root : node; fs_cwd : list string }.

(** Components of the physical path named by a path string. *)
Definition resolve_path (fs : fsys) (p : string) : list string :=
  resolve_comps LINK_FUEL (fs_root fs)
    (if is_abs p then [] else fs_cwd fs) (split_on "/"%char p).

(** [str(pathlib.Path(p).resolve())] as Python 3.8 to 3.12 run it:
    the non-strict realpath, except that a symbolic link loop raises
    [RuntimeError("Symlink loop from ...")] (3.10 to 3.12 detect it by
    the [stat()] of the result failing with ELOOP, 3.8 and 3.9 in their
    own resolver).  The message is the one of 3.8 and 3.9, with the
    repr of the path string; 3.10 to 3.12 show the repr of the [Path]
    object instead. *)
Definition path_resolve (fs : fsys) (p : string) : result string :=
  let cs := resolve_path fs p in
  if resolve_loops LINK_FUEL (fs_root fs) (if is_abs p then [] else fs_cwd fs)
       (split_on "/"%char p)
  then Err (RuntimeError ("Symlink loop from '" ++ render cs ++ "'"))
  else Ok (render cs).

(** [get_full_path] ([pebblo.py], lines 138-156). *)
Definition get_full_path (fs : fsys) (path : string) : result string :=
  if String.eqb path ""
     || str_contains "://" path
     || is_abs path
     || str_in path ["unknown"; "-"; "in-memory"]
  then Ok path
  else path_resolve fs path.

(* ------------------------------------------------------------------ *)
(** ** [os] queries on the tree *)

(** [os.stat] of a component path, following links; a link that could
    not be resolved (loop) does not stat. *)
Definition stat_comps (root : node) (cs : list string) : option node :=
  match lookup root (resolve_comps LINK_FUEL root [] cs) with
  | Some (NLink _) => None
  | r => r
  end.

(** [os.lstat] of a component path: the parent is resolved, the last
    component is not followed. *)
Definition lstat_comps (root : node) (cs : list string) : option node :=
  match cs with
  | [] => Some root
  | _ => lookup root (resolve_comps LINK_FUEL root [] (removelast cs)
                      ++ [last cs ""])
  end.

(** [os.stat] of a path string relative to the working directory. *)
Definition stat_path (fs : fsys) (p : string) : option node :=
  if String.eqb p "" then None
  else match lookup (fs_root fs) (resolve_path fs p) with
       | Some (NLink _) => None
       | r => r
       end.

Definition islink (root : node) (cs : list string) : bool :=
  match lstat_comps root cs with
  | Some (NLink _) => true
  | _ => false
  end.

(** [os.path.getsize]: [st_size] of the followed path.  Only reached on
    non-directories by the code below. *)
Definition getsize (root : node) (cs : list string) : result Z :=
  match stat_comps root cs with
  | Some (NFile s _) => Ok s
  | Some (NDir _ _) => Err (OSError "directory size not modelled")
  | _ => Err (OSError "No such file or directory")
  end.

(** [DirEntry.is_dir()] of the entry [name] of directory [top]: the
    entry's own type, except for a link, which is stat'ed. *)
Definition entry_is_dir (root : node) (top : list string) (e : string * node)
  : bool :=
  match snd e with
  | NDir _ _ => true
  | NFile _ _ => false
  | NLink _ =>
      match stat_comps root (top ++ [fst e]) with
      | Some (NDir _ _) => true
      | _ => false
      end
  end.

(** [os.walk(top)] (top-down, [followlinks=False]): the triple of the
    directory itself, then the walks of its sub-directories that are not
    links, in scan order.  [top] is the physical path of directory [n]. *)
Fixpoint os_walk (root : node) (top : list string) (n : node) {struct n}
  : list (list string * list string * list string) :=
  match n with
  | NDir _ es =>
      (top, map fst (filter (entry_is_dir root top) es),
            map fst (filter (fun e => negb (entry_is_dir root top e)) es))
      :: flat_map (fun '(name, c) =>
                    if entry_is_dir root top (name, c)
                       && negb (islink root (top ++ [name]))
                    then os_walk root (top ++ [name]) c else []) es
  | _ => []
  end.

(** [for f in filenames: fp = join(dirpath, f); if not islink(fp):
    total_size += getsize(fp)] *)
Fixpoint sum_files (root : node) (dirpath : list string) (fnames : list string)
  (total : Z) : result Z :=
  match fnames with
  | [] => Ok total
  | f :: fs' =>
      let fp := dirpath ++ [f] in
      if negb (islink root fp) then
        s <- getsize root fp ;; sum_files root dirpath fs' (total + s)%Z
      else sum_files root dirpath fs' total
  end.

(** [for dirpath, _, filenames in os.walk(source_path): ...] *)
Fixpoint sum_walk (root : node)
  (w : list (list string * list string * list string)) (total : Z)
  : result Z :=
  match w with
  | [] => Ok total
  | (dirpath, _, filenames) :: w' =>
      t <- sum_files root dirpath filenames total ;; sum_walk root w' t
  end.

(** [DaxaSafeLoader.get_source_size] (daxa.py, lines 154-165).  [None]
    is Python's [None] (a document without a [source]): [os.path.isfile]
    raises [TypeError] on it.  When the path is neither a file nor a
    directory, [size] is never bound and [return size] raises. *)
Definition get_source_size (fs : fsys) (source_path : option string)
  : result Z :=
  match source_path with
  | None => Err (TypeError "stat: path should be string, not NoneType")
  | Some p =>
      match stat_path fs p with
      | Some (NFile s _) => Ok s
      | Some (NDir u es) =>
          sum_walk (fs_root fs) (os_walk (fs_root fs) (resolve_path fs p)
                                   (NDir u es)) 0%Z
      | _ => Err (UnboundLocalError "size")
      end
  end.

(** [get_file_owner_from_path]: [pwd.getpwuid(os.stat(p).st_uid)]; any
    failure gives "unknown". *)
Definition get_file_owner_from_path (fs : fsys) (users : list (Z * string))
  (file_path : option string) : string :=
  let uid := match file_path with
             | None => None
             | Some p => match stat_path fs p with
                         | Some (NFile _ u) | Some (NDir u _) => Some u
                         | _ => None
                         end
             end in
  match uid with
  | None => "unknown"
  | Some u =>
      match find (fun e => Z.eqb (fst e) u) users with
      | Some (_, name) => name
      | None => "unknown"
      end
  end.

(* ------------------------------------------------------------------ *)
(** ** Specification side of the size computation *)

(** Sum of the sizes of the regular files in a tree, symbolic links
    counting zero (spec: "recursive sum of regular-file sizes beneath it,
    excluding symbolic links"). *)
Fixpoint tree_size (n : node) : Z :=
  match n with
  | NFile s _ => s
  | NLink _ => 0%Z
  | NDir _ es => fold_right Z.add 0%Z (map (fun '(_, c) => tree_size c) es)
  end.

(** A well-formed tree: entry names are valid (non-empty, not "." or
    "..", no "/") and distinct within each directory. *)
Definition valid_name (s : string) : bool :=
  negb (String.eqb s "") && negb (String.eqb s ".") && negb (String.eqb s "..")
  && negb (str_contains "/" s).

Fixpoint nodup_names (l : list string) : bool :=
  match l with
  | [] => true
  | x :: l' => negb (str_in x l') && nodup_names l'
  end.

Fixpoint wf_node (n : node) : bool :=
  match n with
  | NDir _ es =>
      forallb valid_name (map fst es) && nodup_names (map fst es)
      && forallb (fun '(_, c) => wf_node c) es
  | _ => true
  end.

(** No component of [rest], walked from the physical path [cur], is
    "", "." or "..", and none names a symbolic link. *)
Fixpoint link_free (root : node) (cur rest : list string) : bool :=
  match rest with
  | [] => true
  | c :: rest' =>
      valid_name c
      && match lookup root (cur ++ [c]) with Some (NLink _) => false | _ => true end
      && link_free root (cur ++ [c]) rest'
  end.

(* ------------------------------------------------------------------ *)
(** ** JSON values, documents and wrapped loaders *)

Inductive json : Type :=
| JNull
| JBool (b : bool)
| JInt (z : Z)
| JStr (s : string)
| JList (l : list json)
| JObj (kv : list (string * json)).

(** [d[k]] of a JSON object, first binding. *)
Fixpoint jget (k : string) (kv : list (string * json)) : option json :=
  match kv with
  | [] => None
  | (k', v) :: kv' => if String.eqb k k' then Some v else jget k kv'
  end.

(** [d[k] = v]: replaces the value in place, or appends a new key. *)
Fixpoint jset (k : string) (v : json) (kv : list (string * json))
  : list (string * json) :=
  match kv with
  | [] => [(k, v)]
  | (k', v') :: kv' =>
      if String.eqb k k' then (k', v) :: kv' else (k', v') :: jset k v kv'
  end.

Definition jopt (o : option string) : json :=
  match o with Some s => JStr s | None => JNull end.

(** A [langchain] Document: [page_content] and its [metadata] dict
    (string values). *)
Record Document : Type := mkDoc {
  page_content : string;
  metadata : list (string * string)
}.

Definition meta_get (k : string) (d : Document) : option string :=
  match find (fun e => String.eqb (fst e) k) (metadata d) with
  | Some (_, v) => Some v
  | None => None
  end.

(** Attribute values of a wrapped loader's [__dict__] as the code reads
    them: a scalar by its [str()], or a list of strings ([web_paths]). *)
Inductive attr : Type :=
| AStr (s : string)
| AList (l : list string).

Definition py_str_attr (a : attr) : string :=
  match a with
  | AStr s => s
  | AList l => ("[" ++ join_with ", " (map (fun s => "'" ++ s ++ "'") l) ++ "]")%string
  end.

(** A wrapped loader, as far as the wrapper observes it: its dynamic
    type [<class 'module.Class'>], the names of the classes it derives
    from (its MRO after its own class), whether it derives from
    [BaseLoader], its instance dict, the outcome of [load()] and the
    outcome of [lazy_load()] (an iterator over the given documents, or
    the exception raised by the call). *)
Record Loader : Type := mkLoader {
  ld_module : string;
  ld_class : string;
  ld_bases : list string;
  ld_is_base : bool;
  ld_attrs : list (string * attr);
  ld_load : result (list Document);
  ld_lazy : result (list Document)
}.

Definition type_str (l : Loader) : string :=
  ("<class '" ++ ld_module l ++ "." ++ ld_class l ++ "'>")%string.

(** [str(type(self.loader)).split(".")[-1].split("'")[0]] *)
Definition loader_name_of (l : Loader) : string :=
  hd "" (split_on "'"%char (last_str (split_on "."%char (type_str l)))).

(** [isinstance(loader, C)] for the loader classes named in
    [get_loader_full_path]: [C] is the loader's class or one of its
    bases (classes are identified by name). *)
Definition isinstance (l : Loader) (cls : string) : bool :=
  String.eqb (ld_class l) cls || str_in cls (ld_bases l).

Definition has_key (k : string) (l : Loader) : bool :=
  existsb (fun e => String.eqb (fst e) k) (ld_attrs l).

Definition getattr (k : string) (l : Loader) : result attr :=
  match find (fun e => String.eqb (fst e) k) (ld_attrs l) with
  | Some (_, v) => Ok v
  | None => Err (AttributeError k)
  end.

Definition getattr_str (k : string) (l : Loader) : result string :=
  a <- getattr k l ;; Ok (py_str_attr a).

(** [get_loader_full_path] ([pebblo.py], lines 174-215). *)
Definition get_loader_full_path (fs : fsys) (l : Loader) : result string :=
  if negb (ld_is_base l) then Ok "-"
  else
    loc <-
      (if has_key "bucket" l then
         if isinstance l "GCSFileLoader" then
           b <- getattr_str "bucket" l ;; o <- getattr_str "blob" l ;;
           Ok ("gc://" ++ b ++ "/" ++ o)%string
         else if isinstance l "S3FileLoader" then
           b <- getattr_str "bucket" l ;; k <- getattr_str "key" l ;;
           Ok ("s3://" ++ b ++ "/" ++ k)%string
         else Ok "-"
       else if has_key "source" l then
         s <- getattr_str "source" l ;;
         if has_key "channel" l then
           c <- getattr_str "channel" l ;; Ok (s ++ "/" ++ c)%string
         else Ok s
       else if has_key "path" l then getattr_str "path" l
       else if has_key "file_path" l then getattr_str "file_path" l
       else if has_key "web_paths" l then
         a <- getattr "web_paths" l ;;
         match a with
         | AList (w :: _) => Ok w
         | AList [] => Err (IndexError "list index out of range")
         | AStr s => match s with
                     | String c _ => Ok (String c EmptyString)
                     | EmptyString => Err (IndexError "string index out of range")
                     end
         end
       else if isinstance l "DataFrameLoader" then Ok "in-memory"
       else if isinstance l "NotionDBLoader" then
         d <- getattr_str "database_id" l ;; Ok ("notiondb://" ++ d)%string
       else Ok "-") ;;
    get_full_path fs loc.

(* ------------------------------------------------------------------ *)
(** ** The [Doc] schema ([pebblo.py], lines 114-135) and its validation *)

Inductive ftype : Type := FStr | FList | FDict | FBool.

Definition Doc_fields : list (string * ftype) :=
  [ ("name", FStr); ("owner", FStr); ("docs", FList);
    ("plugin_version", FStr); ("load_id", FStr);
    ("loader_details", FDict); ("loading_end", FBool);
    ("source_owner", FStr) ].

Definition ascii_lower (c : ascii) : ascii :=
  let n := nat_of_ascii c in
  if (65 <=? n)%nat && (n <=? 90)%nat then ascii_of_nat (n + 32) else c.

Fixpoint str_lower (s : string) : string :=
  match s with
  | EmptyString => EmptyString
  | String c s' => String (ascii_lower c) (str_lower s')
  end.

(** Coercion of one field value to its declared type (pydantic's bool
    parsing accepts the usual true/false spellings, case-insensitive). *)
Definition coerce (t : ftype) (v : json) : option json :=
  match t, v with
  | FStr, JStr _ => Some v
  | FList, JList _ => Some v
  | FDict, JObj _ => Some v
  | FBool, JBool _ => Some v
  | FBool, JInt 0 => Some (JBool false)
  | FBool, JInt 1 => Some (JBool true)
  | FBool, JStr s =>
      let s' := str_lower s in
      if str_in s' ["1"; "on"; "t"; "true"; "y"; "yes"] then Some (JBool true)
      else if str_in s' ["0"; "off"; "f"; "false"; "n"; "no"] then Some (JBool false)
      else None
  | _, _ => None
  end.

(** [Doc.model_validate(payload).model_dump(exclude_unset=True)]: every
    declared field is required; the names of the missing or ill-typed
    ones make the [ValidationError]; unknown keys are dropped. *)
Definition validate_Doc (payload : json) : result json :=
  match payload with
  | JObj kv =>
      let check '(f, t) :=
        match jget f kv with
        | Some v => match coerce t v with Some v' => inr (f, v') | None => inl f end
        | None => inl f
        end in
      let rs := map check Doc_fields in
      let bad := flat_map (fun r => match r with inl f => [f] | inr _ => [] end) rs in
      let good := flat_map (fun r => match r with inl _ => [] | inr p => [p] end) rs in
      match bad with
      | [] => Ok (JObj good)
      | _ => Err (ValidationError bad)
      end
  | _ => Err (ValidationError ["__root__"])
  end.

(* ------------------------------------------------------------------ *)
(** ** Runtime facts, [get_runtime] and the [App] payload *)

(** What [get_runtime] and [get_local_runtime] read of the host:
    [platform.uname()], [get_runtime_environment()], [os.environ],
    the host name and its resolution. *)
Record host : Type := mkHost {
  h_node : string;
  h_system : string;
  h_version : string;
  h_runtime_env : list (string * string);
  h_env_pwd : option string;
  h_env_classifier : option string;
  h_hostname : string;
  h_host_ip : option string;
  h_localhost_ip : string
}.

Definition PLUGIN_VERSION : string := "0.1.0".

Definition CLASSIFIER_URL (h : host) : string :=
  match h_env_classifier h with
  | Some u => u
  | None => "http://localhost:8000/v1"
  end.

Definition env_get (k : string) (d : list (string * string)) : option string :=
  match find (fun e => String.eqb (fst e) k) d with
  | Some (_, v) => Some v
  | None => None
  end.

Definition env_get_or (k dflt : string) (d : list (string * string)) : string :=
  match env_get k d with Some v => v | None => dflt end.

(** [get_runtime()]: the dumped [Framework] and [Runtime] models. *)
Definition get_runtime (h : host) : result (json * json) :=
  version <- (match env_get "library_version" (h_runtime_env h) with
              | Some v => Ok v
              | None => Err (ValidationError ["version"])
              end) ;;
  path <- (match h_env_pwd h with
           | Some p => Ok p
           | None => Err (KeyError "PWD")
           end) ;;
  let ip := match h_host_ip h with Some ip => ip | None => h_localhost_ip h end in
  let rtype := if str_contains "Darwin" (h_system h) then "desktop" else "local" in
  Ok (JObj [("name", JStr "langchain"); ("version", JStr version)],
      JObj [("type", JStr rtype); ("host", JStr (h_node h)); ("path", JStr path);
            ("ip", JStr ip);
            ("platform", JStr (env_get_or "platform" "unknown" (h_runtime_env h)));
            ("os", JStr (h_system h)); ("os_version", JStr (h_version h));
            ("language", JStr (env_get_or "runtime" "unknown" (h_runtime_env h)));
            ("language_version",
              JStr (env_get_or "runtime_version" "unknown" (h_runtime_env h)));
            ("runtime", JStr "local")]).

(* ------------------------------------------------------------------ *)
(** ** The world and the state/exception monad *)

(** Outcome of one [requests.post]: a response (status, and whether its
    body parses as JSON), or an exception raised by the call. *)
Inductive net_outcome : Type :=
| NResp (status : Z) (json_ok : bool)
| NRaise (e : exn).

(** [w_uuid n] is the [n]-th value returned by [uuid.uuid4()].
    [w_posts] lists the HTTP requests issued (url, body), newest first;
    [w_reports] and [w_yields] are observation points: the calls of
    [_send_loader_doc] (current [self.docs], [loading_end]) and the
    values yielded by [lazy_load], newest first. *)
Record world : Type := mkWorld {
  w_fs : fsys;
  w_users : list (Z * string);
  w_host : host;
  w_uuid : nat -> string;
  w_uuid_next : nat;
  w_net : list net_outcome;
  w_posts : list (string * json);
  w_reports : list (list Document * bool);
  w_yields : list (list Document);
  w_discover_sent : bool;
  w_loader_sent : bool
}.

Definition SM (S A : Type) : Type := S -> result A * S.

Definition sret {S A} (a : A) : SM S A := fun s => (Ok a, s).
Definition sbind {S A B} (m : SM S A) (k : A -> SM S B) : SM S B :=
  fun s => match m s with
           | (Ok a, s') => k a s'
           | (Err e, s') => (Err e, s')
           end.
Definition sraise {S A} (e : exn) : SM S A := fun s => (Err e, s).
Definition slift {S A} (r : result A) : SM S A := fun s => (r, s).
Definition sget {S} : SM S S := fun s => (Ok s, s).
Definition smodify {S} (f : S -> S) : SM S unit := fun s => (Ok tt, f s).

Notation "'let*' x ':=' m 'in' k" := (sbind m (fun x => k))
  (at level 200, x name, m at level 100, k at level 200).

Definition set_uuid_next (n : nat) (w : world) : world :=
  mkWorld (w_fs w) (w_users w) (w_host w) (w_uuid w) n (w_net w) (w_posts w)
    (w_reports w) (w_yields w) (w_discover_sent w) (w_loader_sent w).

(** [requests.post(url, json=body)]: the request is issued and the next
    network outcome is consumed (a reachable service answering 200 once
    the listed outcomes are used up). *)
Definition post_world (url : string) (body : json) (w : world)
  : net_outcome * world :=
  let (o, rest) := match w_net w with
                   | o :: rest => (o, rest)
                   | [] => (NResp 200 true, [])
                   end in
  (o, mkWorld (w_fs w) (w_users w) (w_host w) (w_uuid w) (w_uuid_next w) rest
        ((url, body) :: w_posts w) (w_reports w) (w_yields w)
        (w_discover_sent w) (w_loader_sent w)).

Definition add_report (r : list Document * bool) (w : world) : world :=
  mkWorld (w_fs w) (w_users w) (w_host w) (w_uuid w) (w_uuid_next w) (w_net w)
    (w_posts w) (r :: w_reports w) (w_yields w) (w_discover_sent w)
    (w_loader_sent w).

Definition add_yield (y : list Document) (w : world) : world :=
  mkWorld (w_fs w) (w_users w) (w_host w) (w_uuid w) (w_uuid_next w) (w_net w)
    (w_posts w) (w_reports w) (y :: w_yields w) (w_discover_sent w)
    (w_loader_sent w).

Definition set_discover_sent (w : world) : world :=
  mkWorld (w_fs w) (w_users w) (w_host w) (w_uuid w) (w_uuid_next w) (w_net w)
    (w_posts w) (w_reports w) (w_yields w) true (w_loader_sent w).

Definition set_loader_sent (w : world) : world :=
  mkWorld (w_fs w) (w_users w) (w_host w) (w_uuid w) (w_uuid_next w) (w_net w)
    (w_posts w) (w_reports w) (w_yields w) (w_discover_sent w) true.

(** [str(uuid.uuid4())] *)
Definition uuid4 : SM world string :=
  fun w => (Ok (w_uuid w (w_uuid_next w)), set_uuid_next (S (w_uuid_next w)) w).

(* ------------------------------------------------------------------ *)
(** ** [DaxaSafeLoader] (daxa.py) *)

(** The instance attributes set by [__init__] ([app] is the dumped
    [App] model, [loader_details] the dict of lines 36-41). *)
Record daxa : Type := mkDaxa {
  app_name : string;
  load_id : string;
  loader : Loader;
  owner : string;
  description : string;
  source_path : string;
  source_owner : string;
  docs : list Document;
  source_type : string;
  source_size : Z;
  loader_details : json;
  app : json
}.

Definition set_docs_of (ds : list Document) (d : daxa) : daxa :=
  mkDaxa (app_name d) (load_id d) (loader d) (owner d) (description d)
    (source_path d) (source_owner d) ds (source_type d) (source_size d)
    (loader_details d) (app d).

(** [self.__class__.__name__] inside the wrapper's methods. *)
Definition WRAPPER_CLASS : string := "DaxaSafeLoader".

(** A constructor argument as Python sees it. *)
Inductive pyval : Type :=
| PStr (s : string)
| PNone
| POther (truthy : bool).

(** [if not v or not isinstance(v, str): raise NameError(msg)] *)
Definition check_arg (v : pyval) (msg : string) : SM world string :=
  match v with
  | PStr s => if String.eqb s "" then sraise (NameError msg) else sret s
  | _ => sraise (NameError msg)
  end.

(** [_send_discover] (lines 115-130). *)
Definition _send_discover (self : daxa) : SM world unit :=
  fun w =>
    let url := (CLASSIFIER_URL (w_host w) ++ "/app/discover")%string in
    let (o, w') := post_world url (app self) w in
    match o with
    | NResp st true =>
        if Z.eqb st 200 || Z.eqb st 502 then (Ok tt, set_discover_sent w')
        else (Ok tt, w')
    | _ => (Ok tt, w')
    end.

(** The network outcome the next [requests.post] consumes. *)
Definition next_outcome (w : world) : net_outcome :=
  match w_net w with o :: _ => o | [] => NResp 200 true end.

(** The outcomes on which [_send_discover] calls [set_discover_sent]:
    a JSON response with status 200 or 502. *)
Definition discover_accepted (o : net_outcome) : bool :=
  match o with
  | NResp st true => Z.eqb st 200 || Z.eqb st 502
  | _ => false
  end.

(** [DaxaSafeLoader.__init__] (lines 20-44). *)
Definition daxa_init (l : Loader) (app_id owner_arg : pyval) (descr : string)
  : SM world daxa :=
  let* name := check_arg app_id "No app_id is passed or invalid app_id." in
  let* own := check_arg owner_arg "No owner is passed or invalid owner." in
  let* lid := uuid4 in
  let* w := sget in
  let fs := w_fs w in
  let* sp := slift (get_loader_full_path fs l) in
  let so := get_file_owner_from_path fs (w_users w) (Some sp) in
  let lname := loader_name_of l in
  let stype := get_loader_type lname in
  let* ssize := slift (get_source_size fs (Some sp)) in
  let details := JObj [("loader", JStr lname); ("source_path", JStr sp);
                       ("source_type", JStr stype); ("source_size", JInt ssize)] in
  let* frt := slift (get_runtime (w_host w)) in
  let appj := JObj [("name", JStr name); ("owner", JStr own);
                    ("description", JStr descr); ("load_id", JStr lid);
                    ("runtime", snd frt); ("framework", fst frt);
                    ("plugin_version", JStr PLUGIN_VERSION)] in
  let self := mkDaxa name lid l own descr sp so [] stype ssize details appj in
  let* _ := _send_discover self in
  sret self.

(** Methods run on the world together with the instance. *)
Definition wlift {A} (m : SM world A) : SM (world * daxa) A :=
  fun s => let (r, w') := m (fst s) in (r, (w', snd s)).

Definition get_self : SM (world * daxa) daxa := fun s => (Ok (snd s), s).

Definition set_docs (ds : list Document) : SM (world * daxa) unit :=
  fun s => (Ok tt, (fst s, set_docs_of ds (snd s))).

(** One entry of the [docs] list built in [_send_loader_doc]
    (lines 83-87); [get_full_path(None)] is [None]. *)
Definition doc_record (fs : fsys) (users : list (Z * string)) (d : Document)
  : result json :=
  sp <- match meta_get "source" d with
        | Some src => p <- get_full_path fs src ;; Ok (Some p)
        | None => Ok None
        end ;;
  let own := get_file_owner_from_path fs users sp in
  size <- get_source_size fs sp ;;
  Ok (JObj [("doc", JStr (page_content d)); ("source_path", jopt sp);
            ("last_modified", jopt (meta_get "last_modified" d));
            ("file_owner", JStr own); ("source_size", JInt size)]).

Fixpoint doc_records (fs : fsys) (users : list (Z * string)) (ds : list Document)
  : result (list json) :=
  match ds with
  | [] => Ok []
  | d :: ds' =>
      j <- doc_record fs users d ;; js <- doc_records fs users ds' ;; Ok (j :: js)
  end.

(** The payload dict of lines 88-99. *)
Definition loader_doc_payload (self : daxa) (docs_j : list json) (loading_end : bool)
  : json :=
  let p := [("name", JStr (app_name self)); ("owner", JStr (owner self));
            ("docs", JList docs_j); ("plugin_version", JStr PLUGIN_VERSION);
            ("load_id", JStr (load_id self));
            ("loader_details", loader_details self);
            ("loading_end", JStr "false");
            ("file_owner", JStr (source_owner self))] in
  JObj (if loading_end then jset "loading_end" (JStr "true") p else p).

(** [_send_loader_doc] (lines 79-113).  The payload is built and
    validated before the [try]; only the request and the logging of its
    response are guarded, and every exception raised there is caught. *)
Definition _send_loader_doc (loading_end : bool) : SM (world * daxa) unit :=
  let* self := get_self in
  let* _ := wlift (smodify (add_report (docs self, loading_end))) in
  let* w := wlift sget in
  let* docs_j := slift (doc_records (w_fs w) (w_users w) (docs self)) in
  let* body := slift (validate_Doc (loader_doc_payload self docs_j loading_end)) in
  let* _ := wlift (fun w =>
              let (_, w') := post_world (CLASSIFIER_URL (w_host w) ++ "/loader/doc")%string
                               body w in
              (Ok tt, w')) in
  if loading_end then wlift (smodify set_loader_sent) else sret tt.

(** [load] (lines 46-50). *)
Definition load : SM (world * daxa) (list Document) :=
  let* self := get_self in
  let* ds := slift (ld_load (loader self)) in
  let* _ := set_docs ds in
  let* _ := _send_loader_doc true in
  let* self' := get_self in
  sret (docs self').

(** [yield self.docs] *)
Definition yield_ (y : list Document) : SM (world * daxa) unit :=
  wlift (smodify (add_yield y)).

(** The [while True] loop of [lazy_load] over the wrapped iterator. *)
Fixpoint lazy_loop (it : list Document) : SM (world * daxa) unit :=
  match it with
  | [] =>
      let* _ := set_docs [] in
      _send_loader_doc true
  | d :: it' =>
      let* _ := set_docs [d] in
      let* _ := _send_loader_doc false in
      let* _ := yield_ [d] in
      lazy_loop it'
  end.

(** [lazy_load] (lines 52-69), as the generator runs when its consumer
    iterates it to the end: the body starts at the first [next()]. *)
Definition lazy_load : SM (world * daxa) unit :=
  let* self := get_self in
  let* it := match ld_lazy (loader self) with
             | Ok ds => sret ds
             | Err (NotImplementedError _) =>
                 sraise (NotImplementedError
                           (WRAPPER_CLASS ++ " does not implement lazy_load()")%string)
             | Err e => sraise e
             end in
  lazy_loop it.

(** A run that issues no HTTP request, consumes no network outcome and
    sets neither class flag. *)
Definition quiet (w w' : world) : Prop :=
  w_posts w' = w_posts w /\ w_net w' = w_net w
  /\ w_discover_sent w' = w_discover_sent w /\ w_loader_sent w' = w_loader_sent w.

(* ------------------------------------------------------------------ *)
(** ** Auxiliary sums used in the size proof *)

Definition file_contrib (e : string * node) : Z :=
  match snd e with NFile s _ => s | _ => 0%Z end.
Definition dir_contrib (e : string * node) : Z :=
  match snd e with NDir _ _ => tree_size (snd e) | _ => 0%Z end.
Definition zsum (l : list Z) : Z := fold_right Z.add 0%Z l.

Definition not_link (n : node) : Prop :=
  match n with NLink _ => False | _ => True end.

(* ------------------------------------------------------------------ *)
(** ** Concrete inputs *)

Module Ex.

(** /home/u/d holds a.txt (10 bytes), b.txt (20 bytes) and a symbolic
    link l to a.txt; the working directory is /home/u. *)
Definition dir_d : node :=
  NDir 1 [("a.txt", NFile 10 1); ("b.txt", NFile 20 1); ("l", NLink "a.txt")].

Definition fs : fsys :=
  mkFs (NDir 0 [("home", NDir 0 [("u", NDir 1 [("d", dir_d)])])]) ["home"; "u"].


Definition hst : host :=
  mkHost "box" "Linux" "6.1" [("library_version", "0.1.12")] (Some "/home/u")
    None "box" None "127.0.0.1".

Definition w0 : world :=
  mkWorld fs [(1%Z, "u")] hst (fun _ => "0b6f5c1e-7d2a-4e0b-9d3f-1a2b3c4d5e6f") 0
    [] [] [] [] false false.

Definition doc1 : Document := mkDoc "hello" [("source", "d/a.txt")].
Definition doc2 : Document := mkDoc "bye" [("source", "d/b.txt")].

(** A [DirectoryLoader] over d, yielding doc1 and doc2. *)
Definition dir_loader_d : Loader :=
  mkLoader "langchain_community.document_loaders.directory" "DirectoryLoader"
    ["BaseLoader"]
    true [("path", AStr "d")] (Ok [doc1; doc2]) (Ok [doc1; doc2]).

(** A [DataFrameLoader] (in-memory source). *)
Definition df_loader : Loader :=
  mkLoader "langchain_community.document_loaders.dataframe" "DataFrameLoader"
    ["BaseLoader"]
    true [("data_frame", AStr "df"); ("page_content_column", AStr "text")]
    (Ok []) (Ok []).

(** A [CSVLoader] without lazy iteration. *)
Definition csv_loader : Loader :=
  mkLoader "langchain_community.document_loaders.csv_loader" "CSVLoader"
    ["BaseLoader"]
    true [("file_path", AStr "d/a.txt")] (Ok [doc1])
    (Err (NotImplementedError "CSVLoader does not implement lazy_load()")).

(** A wrapper instance over [dir_loader_d], as [__init__] builds it in
    [w0]. *)
Definition inst : daxa :=
  mkDaxa "app" "0b6f5c1e-7d2a-4e0b-9d3f-1a2b3c4d5e6f" dir_loader_d "me" ""
    "/home/u/d" "u" [] "dir" 30
    (JObj [("loader", JStr "DirectoryLoader"); ("source_path", JStr "/home/u/d");
           ("source_type", JStr "dir"); ("source_size", JInt 30)])
    JNull.

(** A wrapper instance over [csv_loader]. *)
Definition inst_csv : daxa :=
  mkDaxa "app" "0b6f5c1e-7d2a-4e0b-9d3f-1a2b3c4d5e6f" csv_loader "me" ""
    "/home/u/d/a.txt" "u" [] "file" 10
    (JObj [("loader", JStr "CSVLoader"); ("source_path", JStr "/home/u/d/a.txt");
           ("source_type", JStr "file"); ("source_size", JInt 10)])
    JNull.

(** An [S3DirLoader]: it has a [bucket] attribute but is not one of the
    two bucket classes [get_loader_full_path] knows. *)
Definition s3dir_loader : Loader :=
  mkLoader "langchain_community.document_loaders.s3_directory" "S3DirLoader"
    ["BaseLoader"]
    true [("bucket", AStr "reports"); ("prefix", AStr "2024/")] (Ok []) (Ok []).

(** A user-defined subclass of [S3FileLoader]. *)
Definition my_s3_loader : Loader :=
  mkLoader "app.loaders" "MyS3Loader"
    ["S3FileLoader"; "UnstructuredBaseLoader"; "BaseLoader"]
    true [("bucket", AStr "reports"); ("key", AStr "2024/q1.pdf")] (Ok []) (Ok []).

(** A [WebBaseLoader] built with an empty list of URLs. *)
Definition web_loader_empty : Loader :=
  mkLoader "langchain_community.document_loaders.web_base" "WebBaseLoader"
    ["BaseLoader"]
    true [("web_paths", AList []); ("requests_per_second", AStr "2")]
    (Ok []) (Ok []).

(** A [TextLoader] whose file cannot be read. *)
Definition broken_loader : Loader :=
  mkLoader "langchain_community.document_loaders.text" "TextLoader"
    ["BaseLoader"]
    true [("file_path", AStr "d/a.txt")]
    (Err (OSError "Permission denied")) (Err (OSError "Permission denied")).

Definition inst_broken : daxa :=
  mkDaxa "app" "0b6f5c1e-7d2a-4e0b-9d3f-1a2b3c4d5e6f" broken_loader "me" ""
    "/home/u/d/a.txt" "u" [] "unknown" 10
    (JObj [("loader", JStr "TextLoader"); ("source_path", JStr "/home/u/d/a.txt");
           ("source_type", JStr "unknown"); ("source_size", JInt 10)])
    JNull.

(** The host of [hst], run with no PWD in its environment. *)
Definition hst_nopwd : host :=
  mkHost "box" "Linux" "6.1" [("library_version", "0.1.12")] None
    None "box" None "127.0.0.1".

Definition w_nopwd : world :=
  mkWorld fs [(1%Z, "u")] hst_nopwd (fun _ => "0b6f5c1e-7d2a-4e0b-9d3f-1a2b3c4d5e6f") 0
    [] [] [] [] false false.

End Ex.

(* ------------------------------------------------------------------ *)
(** * Proofs *)

Lemma str_in_spec (x : string) (l : list string) : str_in x l = true <-> In x l.
Proof.
  unfold str_in. rewrite existsb_exists. split.
  - intros [y [Hy Heq]]. apply String.eqb_eq in Heq. subst. exact Hy.
  - intros H. exists x. split; [exact H | apply String.eqb_refl].
Qed.

Lemma first_loader_type_first (name : string) :
  forall m pre cat l post,
    m = pre ++ (cat, l) :: post -> In name l ->
    (forall c' l', In (c', l') pre -> ~ In name l') ->
    first_loader_type name m = cat.
Proof.
  intros m pre. revert m. induction pre as [|[c0 l0] pre IH]; intros m cat l post Hm Hin Hpre; subst m; simpl.
  - apply str_in_spec in Hin. rewrite Hin. reflexivity.
  - destruct (str_in name l0) eqn:E.
    + apply str_in_spec in E. exfalso. apply (Hpre c0 l0); [left; reflexivity | exact E].
    + apply (IH _ cat l post eq_refl Hin). intros c' l' H. apply (Hpre c' l'). right. exact H.
Qed.

Lemma first_loader_type_absent (name : string) :
  forall m, (forall c l, In (c, l) m -> ~ In name l) -> first_loader_type name m = "unknown".
Proof.
  induction m as [|[c0 l0] m IH]; intros H; simpl; [reflexivity|].
  destruct (str_in name l0) eqn:E.
  - apply str_in_spec in E. exfalso. apply (H c0 l0); [left; reflexivity | exact E].
  - apply IH. intros c l Hc. apply (H c l). right. exact Hc.
Qed.

(** Claim C7: [get_loader_type] scans the four lists file, dir,
    in-memory, remote_db in that order and returns the category of the
    first list that contains the name (string equality, no partial
    match); a name in no list gives "unknown". *)
Theorem get_loader_type_priority (name : string) :
  (forall pre cat l post,
      LOADER_TYPE_MAPPING = pre ++ (cat, l) :: post -> In name l ->
      (forall c' l', In (c', l') pre -> ~ In name l') ->
      get_loader_type name = cat)
  /\ ((forall c l, In (c, l) LOADER_TYPE_MAPPING -> ~ In name l) ->
      get_loader_type name = "unknown").
Proof.
  split.
  - intros pre cat l post Hm Hin Hpre. unfold get_loader_type.
    exact (first_loader_type_first name _ pre cat l post Hm Hin Hpre).
  - intros H. apply first_loader_type_absent. exact H.
Qed.




Lemma lookup_app (r : node) (a b : list string) :
  lookup r (a ++ b) = match lookup r a with Some n => lookup n b | None => None end.
Proof.
  revert r. induction a as [|c a IH]; intros r; simpl; [reflexivity|].
  destruct r as [s u|u es|t]; try reflexivity.
  destruct (find_entry c es); [apply IH | reflexivity].
Qed.

Lemma valid_name_not_special (c : string) :
  valid_name c = true ->
  String.eqb c "" = false /\ String.eqb c "." = false /\ String.eqb c ".." = false.
Proof.
  unfold valid_name. intros H.
  destruct (String.eqb c ""), (String.eqb c "."), (String.eqb c ".."); simpl in H;
    try discriminate; auto.
Qed.

Lemma resolve_physical (f : nat) (root : node) :
  forall rest cur n,
    lookup root (cur ++ rest) = Some n -> not_link n ->
    Forall (fun c => valid_name c = true) rest ->
    resolve_comps (S f) root cur rest = cur ++ rest.
Proof.
  induction rest as [|c rest IH]; intros cur n Hl Hn Hv.
  - simpl. rewrite app_nil_r. reflexivity.
  - inversion Hv as [|? ? Hc Hv']; subst.
    destruct (valid_name_not_special c Hc) as [E1 [E2 E3]].
    simpl. rewrite E1, E2, E3. simpl.
    assert (Hm : exists m, lookup root (cur ++ [c]) = Some m /\ not_link m
                           /\ lookup m rest = Some n).
    { replace (cur ++ c :: rest) with ((cur ++ [c]) ++ rest) in Hl
        by (rewrite <- app_assoc; reflexivity).
      rewrite lookup_app in Hl.
      destruct (lookup root (cur ++ [c])) as [m|] eqn:Em; [|discriminate].
      exists m. split; [reflexivity|]. split; [|exact Hl].
      destruct rest as [|c' rest'].
      - simpl in Hl. injection Hl as ->. exact Hn.
      - destruct m; simpl in Hl; try discriminate; exact I. }
    destruct Hm as [m [Em [Hnm Hmr]]].
    rewrite Em. 
    replace (cur ++ c :: rest) with ((cur ++ [c]) ++ rest)
      by (rewrite <- app_assoc; reflexivity).
    assert (Hl' : lookup root ((cur ++ [c]) ++ rest) = Some n).
    { rewrite lookup_app, Em. exact Hmr. }
    pose proof (IH (cur ++ [c]) n Hl' Hn Hv') as IHc. simpl in IHc.
    destruct m; [exact IHc | exact IHc | destruct Hnm].
Qed.

Lemma node_ind' (P : node -> Prop)
  (Hf : forall s u, P (NFile s u)) (Hl : forall t, P (NLink t))
  (Hd : forall u es, (forall name c, In (name, c) es -> P c) -> P (NDir u es)) :
  forall n, P n.
Proof.
  fix F 1. intros [s u|u es|t].
  - apply Hf.
  - apply Hd. revert es. fix G 1. intros [|[n0 c0] es'] name c Hin.
    + destruct Hin.
    + destruct Hin as [Heq|Hin].
      * injection Heq as _ <-. apply F.
      * exact (G es' name c Hin).
  - apply Hl.
Qed.

Lemma find_entry_some_in (name : string) (es : list (string * node)) (c : node) :
  find_entry name es = Some c -> In (name, c) es.
Proof.
  induction es as [|[n0 c0] es IH]; simpl; [discriminate|].
  destruct (String.eqb n0 name) eqn:E.
  - apply String.eqb_eq in E. subst. intros H. injection H as <-. left. reflexivity.
  - intros H. right. apply IH. exact H.
Qed.

Lemma find_entry_in (name : string) (es : list (string * node)) (c : node) :
  nodup_names (map fst es) = true -> In (name, c) es -> find_entry name es = Some c.
Proof.
  induction es as [|[n0 c0] es IH]; simpl; [intros _ []|].
  intros Hnd Hin. apply andb_true_iff in Hnd as [Hn Hnd].
  destruct Hin as [Heq|Hin].
  - injection Heq as <- <-. rewrite String.eqb_refl. reflexivity.
  - destruct (String.eqb n0 name) eqn:E.
    + apply String.eqb_eq in E. subst n0. exfalso.
      apply negb_true_iff in Hn. 
      assert (Hi : str_in name (map fst es) = true).
      { apply str_in_spec. apply in_map_iff. exists (name, c). split; [reflexivity|exact Hin]. }
      rewrite Hi in Hn. discriminate.
    + apply IH; assumption.
Qed.

Lemma wf_lookup (r : node) :
  forall cs n, wf_node r = true -> lookup r cs = Some n ->
  Forall (fun c => valid_name c = true) cs /\ wf_node n = true.
Proof.
  intros cs. revert r. induction cs as [|c cs IH]; intros r n Hwf Hl; simpl in Hl.
  - injection Hl as <-. split; [constructor | exact Hwf].
  - destruct r as [s u|u es|t]; try discriminate.
    destruct (find_entry c es) as [m|] eqn:Ef; [|discriminate].
    apply find_entry_some_in in Ef.
    simpl in Hwf. apply andb_true_iff in Hwf as [Hwf Hch].
    apply andb_true_iff in Hwf as [Hv _].
    assert (Hm : wf_node m = true).
    { rewrite forallb_forall in Hch. exact (Hch (c, m) Ef). }
    destruct (IH m n Hm Hl) as [Hcs Hn]. split; [|exact Hn].
    constructor; [|exact Hcs].
    rewrite forallb_forall in Hv. apply Hv. apply in_map_iff.
    exists (c, m). split; [reflexivity | exact Ef].
Qed.

Lemma sum_walk_app (root : node) a b t :
  sum_walk root (a ++ b) t = rbind (sum_walk root a t) (sum_walk root b).
Proof.
  revert t. induction a as [|[[dp dn] fn] a IH]; intros t; simpl; [reflexivity|].
  destruct (sum_files root dp fn t); simpl; [apply IH | reflexivity].
Qed.

Lemma lstat_snoc (root : node) (top : list string) (name : string) :
  lstat_comps root (top ++ [name])
  = lookup root (resolve_comps LINK_FUEL root [] top ++ [name]).
Proof.
  unfold lstat_comps. rewrite removelast_last, last_last.
  destruct (top ++ [name]) eqn:E; [destruct top; discriminate | reflexivity].
Qed.

Section Walk.
Variable root : node.
Hypothesis root_wf : wf_node root = true.

Section AtDir.
Variables (top : list string) (u : Z) (es : list (string * node)).
Hypothesis top_lookup : lookup root top = Some (NDir u es).
Hypothesis top_valid : Forall (fun c => valid_name c = true) top.

Lemma dir_wf : wf_node (NDir u es) = true.
Proof. exact (proj2 (wf_lookup root top _ root_wf top_lookup)). Qed.

Lemma entry_lookup name c :
  In (name, c) es -> lookup root (top ++ [name]) = Some c.
Proof.
  intros Hin. rewrite lookup_app, top_lookup. simpl.
  pose proof dir_wf as W. simpl in W.
  apply andb_true_iff in W as [W _]. apply andb_true_iff in W as [_ Hnd].
  rewrite (find_entry_in name es c Hnd Hin). reflexivity.
Qed.

Lemma entry_valid name c : In (name, c) es -> valid_name name = true.
Proof.
  intros Hin. pose proof dir_wf as W. simpl in W.
  apply andb_true_iff in W as [W _]. apply andb_true_iff in W as [Hv _].
  rewrite forallb_forall in Hv. apply Hv. apply in_map_iff.
  exists (name, c). split; [reflexivity | exact Hin].
Qed.

Lemma top_physical : resolve_comps LINK_FUEL root [] top = top.
Proof.
  unfold LINK_FUEL. apply (resolve_physical _ root top [] (NDir u es));
    [exact top_lookup | exact I | exact top_valid].
Qed.

Lemma entry_islink name c :
  In (name, c) es ->
  islink root (top ++ [name]) = match c with NLink _ => true | _ => false end.
Proof.
  intros Hin. unfold islink. rewrite lstat_snoc, top_physical.
  rewrite (entry_lookup name c Hin). reflexivity.
Qed.

Lemma entry_stat name c :
  In (name, c) es -> not_link c -> stat_comps root (top ++ [name]) = Some c.
Proof.
  intros Hin Hc. unfold stat_comps.
  assert (Hv : Forall (fun c => valid_name c = true) (top ++ [name])).
  { apply Forall_app. split; [exact top_valid|].
    constructor; [exact (entry_valid name c Hin) | constructor]. }
  unfold LINK_FUEL.
  rewrite (resolve_physical _ root (top ++ [name]) [] c (entry_lookup name c Hin) Hc Hv).
  simpl. rewrite (entry_lookup name c Hin). destruct c; [reflexivity|reflexivity|destruct Hc].
Qed.

Lemma sum_files_entries :
  forall l t, (forall e, In e l -> In e es) ->
  (forall e, In e l -> entry_is_dir root top e = false) ->
  sum_files root top (map fst l) t = Ok (t + zsum (map file_contrib l))%Z.
Proof.
  induction l as [|[name c] l IH]; intros t Hsub Hnd; simpl.
  - f_equal. unfold zsum. simpl. lia.
  - assert (Hin : In (name, c) es) by (apply Hsub; left; reflexivity).
    assert (Hsub' : forall e, In e l -> In e es) by (intros e He; apply Hsub; right; exact He).
    assert (Hnd' : forall e, In e l -> entry_is_dir root top e = false)
      by (intros e He; apply Hnd; right; exact He).
    rewrite (entry_islink name c Hin).
    destruct c as [s uf|ud es'|tg].
    + simpl. unfold getsize. rewrite (entry_stat name (NFile s uf) Hin I). simpl.
      rewrite (IH _ Hsub' Hnd'). unfold file_contrib, zsum; simpl; f_equal; lia.
    + specialize (Hnd (name, NDir ud es') (or_introl eq_refl)). discriminate.
    + simpl. rewrite (IH _ Hsub' Hnd'). unfold file_contrib, zsum; simpl; f_equal; lia.
Qed.

End AtDir.

Lemma contrib_split (top : list string) (es : list (string * node)) :
  (zsum (map file_contrib (filter (fun e => negb (entry_is_dir root top e)) es))
   + zsum (map dir_contrib es))%Z
  = fold_right Z.add 0%Z (map (fun '(_, c) => tree_size c) es).
Proof.
  induction es as [|[name c] es IH]; [reflexivity|].
  simpl. destruct c as [s uf|ud es'|tg]; simpl.
  - unfold zsum, file_contrib, dir_contrib in *. simpl. lia.
  - unfold zsum, file_contrib, dir_contrib in *. simpl. lia.
  - destruct (entry_is_dir root top (name, NLink tg)); simpl;
      unfold zsum, file_contrib, dir_contrib in *; simpl; lia.
Qed.

Lemma walk_total :
  forall n top t, lookup root top = Some n ->
  Forall (fun c => valid_name c = true) top ->
  match n with
  | NDir _ _ => sum_walk root (os_walk root top n) t = Ok (t + tree_size n)%Z
  | _ => True
  end.
Proof.
  induction n as [s uf|tg|u es IH] using node_ind'; intros top t Hl Hv; try exact I.
  assert (Hdirs : forall l t, (forall e, In e l -> In e es) ->
    sum_walk root (flat_map (fun '(name, c) =>
                    if entry_is_dir root top (name, c)
                       && negb (islink root (top ++ [name]))
                    then os_walk root (top ++ [name]) c else []) l) t
    = Ok (t + zsum (map dir_contrib l))%Z).
  { induction l as [|[name c] l IHl]; intros t' Hsub.
    - simpl. unfold zsum. simpl. f_equal. lia.
    - assert (Hin : In (name, c) es) by (apply Hsub; left; reflexivity).
      assert (Hsub' : forall e, In e l -> In e es) by (intros e He; apply Hsub; right; exact He).
      simpl flat_map. rewrite sum_walk_app.
      rewrite (entry_islink top u es Hl Hv name c Hin).
      destruct c as [s uf|ud es'|tg].
      + simpl. rewrite (IHl _ Hsub'). unfold zsum, dir_contrib; simpl; f_equal; lia.
      + simpl.
        assert (Hl' : lookup root (top ++ [name]) = Some (NDir ud es'))
          by exact (entry_lookup top u es Hl name _ Hin).
        assert (Hv' : Forall (fun c => valid_name c = true) (top ++ [name])).
        { apply Forall_app. split; [exact Hv|].
          constructor; [exact (entry_valid top u es Hl name _ Hin) | constructor]. }
        pose proof (IH name (NDir ud es') Hin (top ++ [name]) t' Hl' Hv') as Hc.
        simpl in Hc. rewrite Hc. simpl. rewrite (IHl _ Hsub').
        unfold zsum, dir_contrib; simpl; f_equal; lia.
      + rewrite andb_false_r. simpl. rewrite (IHl _ Hsub').
        unfold zsum, dir_contrib; simpl; f_equal; lia. }
  simpl os_walk. simpl sum_walk.
  rewrite (sum_files_entries top u es Hl Hv).
  - simpl. rewrite (Hdirs es _ (fun e H => H)). f_equal.
    rewrite <- contrib_split with (top := top). simpl. lia.
  - intros e He. apply filter_In in He. exact (proj1 He).
  - intros e He. apply filter_In in He. apply negb_true_iff. exact (proj2 He).
Qed.

End Walk.


(** Claim C9: for a path that is a regular file, [get_source_size]
    returns its byte size; for a directory, the recursive sum of the
    sizes of the regular files beneath it, symbolic links counting zero
    (in a well-formed tree: valid, distinct entry names). *)
Theorem get_source_size_file_dir (fs : fsys) (p : string)
  (Hwf : wf_node (fs_root fs) = true) :
  (forall s u, stat_path fs p = Some (NFile s u) ->
               get_source_size fs (Some p) = Ok s)
  /\ (forall u es, stat_path fs p = Some (NDir u es) ->
                   get_source_size fs (Some p) = Ok (tree_size (NDir u es))).
Proof.
  split.
  - intros s u H. unfold get_source_size. rewrite H. reflexivity.
  - intros u es H. unfold get_source_size. rewrite H.
    assert (Hl : lookup (fs_root fs) (resolve_path fs p) = Some (NDir u es)).
    { unfold stat_path in H. destruct (String.eqb p ""); [discriminate|].
      destruct (lookup (fs_root fs) (resolve_path fs p)) as [[]|]; 
        try discriminate; exact H. }
    destruct (wf_lookup _ _ _ Hwf Hl) as [Hv _].
    pose proof (walk_total (fs_root fs) Hwf (NDir u es) (resolve_path fs p) 0%Z Hl Hv)
      as Hw.
    replace (tree_size (NDir u es)) with (0 + tree_size (NDir u es))%Z by lia.
    exact Hw.
Qed.

(** Witness for C9: directory d with files of 10 and 20 bytes and one
    symbolic link; its size is 30. *)
Lemma get_source_size_file_dir_witness :
  wf_node (fs_root Ex.fs) = true
  /\ get_source_size Ex.fs (Some "d") = Ok 30%Z.
Proof.
  split; [reflexivity|].
  exact (proj2 (get_source_size_file_dir Ex.fs "d" eq_refl) 1%Z _ eq_refl).
Defined.
Lemma loader_doc_payload_keys (self : daxa) (js : list json) (le : bool) :
  exists kv, loader_doc_payload self js le = JObj kv
  /\ jget "source_owner" kv = None
  /\ jget "file_owner" kv = Some (JStr (source_owner self))
  /\ jget "loading_end" kv = Some (JStr (if le then "true" else "false")).
Proof.
  unfold loader_doc_payload. destruct le; eexists; split; try reflexivity; simpl; auto.
Qed.

Lemma validate_loader_doc_payload (self : daxa) (js : list json) (le : bool) :
  exists fields, validate_Doc (loader_doc_payload self js le) = Err (ValidationError fields)
  /\ In "source_owner" fields.
Proof.
  unfold validate_Doc, loader_doc_payload.
  destruct le; simpl; destruct (loader_details self); simpl;
    eexists; split; try reflexivity; simpl; tauto.
Qed.

Lemma send_loader_doc_raises (le : bool) (w : world) (self : daxa) :
  exists e w', _send_loader_doc le (w, self) = (Err e, (w', self))
  /\ w_posts w' = w_posts w
  /\ w_reports w' = (docs self, le) :: w_reports w
  /\ w_yields w' = w_yields w.
Proof.
  destruct w as [fs0 us0 h0 uu0 un0 net0 posts0 reps0 ys0 ds0 ls0].
  cbv beta iota zeta delta [_send_loader_doc sbind get_self wlift smodify sget slift fst snd add_report w_fs w_users].
  destruct (doc_records fs0 us0 (docs self)) as [js|e].
  - destruct (validate_loader_doc_payload self js le) as [fields [Hv _]].
    rewrite Hv. do 2 eexists. split; [reflexivity|]. simpl. auto.
  - do 2 eexists. split; [reflexivity|]. simpl. auto.
Qed.

Lemma load_raises_aux (s : world * daxa) : exists e s', load s = (Err e, s').
Proof.
  destruct s as [w self]. unfold load.
  cbv beta iota zeta delta [sbind get_self slift fst snd].
  destruct (ld_load (loader self)) as [ds|e].
  - unfold set_docs. cbv beta iota zeta delta [fst snd].
    destruct (send_loader_doc_raises true w (set_docs_of ds self))
      as [e [w' [Heq _]]].
    rewrite Heq. eauto.
  - eauto.
Qed.

Lemma lazy_load_raises_aux (w : world) (self : daxa) (it : list Document) :
  ld_lazy (loader self) = Ok it ->
  exists e w' self', lazy_load (w, self) = (Err e, (w', self'))
  /\ w_yields w' = w_yields w
  /\ w_reports w' = (match it with [] => ([], true) | d :: _ => ([d], false) end)
                     :: w_reports w.
Proof.
  intros H. unfold lazy_load. cbv beta iota zeta delta [sbind get_self fst snd].
  rewrite H. unfold sret.
  destruct it as [|d it]; simpl lazy_loop; unfold set_docs;
    cbv beta iota zeta delta [sbind fst snd].
  - destruct (send_loader_doc_raises true w (set_docs_of [] self))
      as [e [w' [Heq [_ [Hr Hy]]]]].
    rewrite Heq. exists e, w', (set_docs_of [] self). auto.
  - destruct (send_loader_doc_raises false w (set_docs_of [d] self))
      as [e [w' [Heq [_ [Hr Hy]]]]].
    rewrite Heq. exists e, w', (set_docs_of [d] self). auto.
Qed.

(** Claim C1 (counterexample): wrapping the DirectoryLoader over d, whose
    [load()] returns [doc1; doc2], the one terminal report is made with
    the document list [doc1; doc2], not an empty list, and [load] raises
    instead of returning the documents. *)
Lemma load_terminal_report_counterexample :
  ld_load (loader Ex.inst) = Ok [Ex.doc1; Ex.doc2]
  /\ w_reports (fst (snd (load (Ex.w0, Ex.inst)))) = [([Ex.doc1; Ex.doc2], true)]
  /\ fst (load (Ex.w0, Ex.inst)) = Err (ValidationError ["source_owner"]).
Proof. split; [reflexivity|]. split; vm_compute; reflexivity. Qed.

(** Claim C1 (amended): when the wrapped loader's [load()] returns [ds],
    [load] stores [ds] as [self.docs] and calls the reporting operation
    exactly once, with [loading_end = true] and the document list [ds]
    itself. *)
Theorem load_reports_loaded_docs (w : world) (self : daxa) (ds : list Document)
  (H : ld_load (loader self) = Ok ds) :
  exists r w' self', load (w, self) = (r, (w', self'))
  /\ w_reports w' = (ds, true) :: w_reports w
  /\ docs self' = ds.
Proof.
  unfold load. cbv beta iota zeta delta [sbind get_self slift fst snd].
  rewrite H. unfold set_docs. cbv beta iota zeta delta [fst snd].
  destruct (send_loader_doc_raises true w (set_docs_of ds self))
    as [e [w' [Heq [_ [Hr _]]]]].
  rewrite Heq. exists (Err e), w', (set_docs_of ds self).
  split; [reflexivity|]. split; [exact Hr | reflexivity].
Qed.

Lemma load_reports_loaded_docs_witness :
  ld_load (loader Ex.inst) = Ok [Ex.doc1; Ex.doc2]
  /\ exists r w' self', load (Ex.w0, Ex.inst) = (r, (w', self'))
     /\ w_reports w' = ([Ex.doc1; Ex.doc2], true) :: w_reports Ex.w0
     /\ docs self' = [Ex.doc1; Ex.doc2].
Proof.
  split; [reflexivity|].
  exact (load_reports_loaded_docs Ex.w0 Ex.inst [Ex.doc1; Ex.doc2] eq_refl).
Defined.

(** Claim C2 (code bug): with a valid app_id and owner, construction
    still raises when the wrapped loader's resolved source path is
    neither a file nor a directory: [get_source_size] reaches
    [return size] with [size] unbound. *)
Theorem init_raises_unsized_source (l : Loader) (a o d : string) (w : world)
  (sp : string) (Ha : a <> "") (Ho : o <> "")
  (Hp : get_loader_full_path (w_fs w) l = Ok sp)
  (Hs : stat_path (w_fs w) sp = None) :
  fst (daxa_init l (PStr a) (PStr o) d w) = Err (UnboundLocalError "size").
Proof.
  apply String.eqb_neq in Ha. apply String.eqb_neq in Ho.
  destruct w as [fs0 us0 h0 uu0 un0 net0 posts0 reps0 ys0 ds0 ls0].
  unfold daxa_init, check_arg. rewrite Ha, Ho.
  cbv beta iota zeta delta [sbind sret sget slift uuid4 fst snd set_uuid_next
                            w_fs w_users w_host].
  simpl in Hp. rewrite Hp.
  unfold get_source_size. simpl in Hs. rewrite Hs. reflexivity.
Qed.

(** Witness for C2: a DataFrameLoader (source "in-memory") wrapped with
    app_id "app" and owner "me". *)
Lemma init_raises_unsized_source_witness :
  fst (daxa_init Ex.df_loader (PStr "app") (PStr "me") "" Ex.w0)
  = Err (UnboundLocalError "size").
Proof.
  apply (init_raises_unsized_source Ex.df_loader "app" "me" "" Ex.w0 "in-memory");
    [discriminate | discriminate | vm_compute; reflexivity | vm_compute; reflexivity].
Defined.

(** Claim C3 (code bug): over any wrapped iterator, [lazy_load] raises
    from the first report it makes (the one for the first document, or
    the terminal one when there is none), before yielding any batch. *)
Theorem lazy_load_raises_before_yield (w : world) (self : daxa) (it : list Document)
  (H : ld_lazy (loader self) = Ok it) :
  exists e w' self', lazy_load (w, self) = (Err e, (w', self'))
  /\ w_yields w' = w_yields w
  /\ w_reports w' = (match it with [] => ([], true) | d :: _ => ([d], false) end)
                     :: w_reports w.
Proof. exact (lazy_load_raises_aux w self it H). Qed.

(** Witness for C3: the iterator yielding doc1, doc2. *)
Lemma lazy_load_raises_before_yield_witness :
  exists e w' self', lazy_load (Ex.w0, Ex.inst) = (Err e, (w', self'))
  /\ w_yields w' = []
  /\ w_reports w' = [([Ex.doc1], false)].
Proof.
  exact (lazy_load_raises_before_yield Ex.w0 Ex.inst [Ex.doc1; Ex.doc2] eq_refl).
Defined.

(** Claim C4 (code bug): [load] raises on every call, and [lazy_load]
    raises over every wrapped iterator, whatever the network does: the
    reporting error is raised outside the [try]. *)
Theorem load_and_lazy_load_raise (s : world * daxa) :
  (exists e s', load s = (Err e, s'))
  /\ (forall it, ld_lazy (loader (snd s)) = Ok it ->
                 exists e s', lazy_load s = (Err e, s')).
Proof.
  split; [exact (load_raises_aux s)|].
  intros it H. destruct s as [w self].
  destruct (lazy_load_raises_aux w self it H) as [e [w' [self' [Heq _]]]].
  rewrite Heq. eauto.
Qed.

(** Claim C5 (code bug): the Doc schema requires [source_owner]; the
    payload of [_send_loader_doc] has [file_owner] and no
    [source_owner], so its validation fails on every call; the failure
    is raised out of [_send_loader_doc] and no request is issued. *)
Theorem send_loader_doc_payload_rejected :
  In ("source_owner", FStr) Doc_fields
  /\ forall (le : bool) (w : world) (self : daxa) (js : list json),
    (exists kv, loader_doc_payload self js le = JObj kv
                /\ jget "source_owner" kv = None
                /\ jget "file_owner" kv = Some (JStr (source_owner self)))
    /\ (exists fields,
          validate_Doc (loader_doc_payload self js le) = Err (ValidationError fields)
          /\ In "source_owner" fields)
    /\ (exists e w', _send_loader_doc le (w, self) = (Err e, (w', self))
                     /\ w_posts w' = w_posts w).
Proof.
  split; [simpl; tauto|].
  intros le w self js. split; [|split].
  - destruct (loader_doc_payload_keys self js le) as [kv [H1 [H2 [H3 _]]]].
    exists kv. auto.
  - apply validate_loader_doc_payload.
  - destruct (send_loader_doc_raises le w self) as [e [w' [H1 [H2 _]]]].
    exists e, w'. auto.
Qed.

(** Claim C6 (code bug): when the wrapped loader's [lazy_load()] raises
    [NotImplementedError], the wrapper raises [NotImplementedError] with
    the message naming its own class, "DaxaSafeLoader", whatever the
    wrapped loader's type. *)
Theorem lazy_load_not_implemented_message (w : world) (self : daxa) (m : string)
  (H : ld_lazy (loader self) = Err (NotImplementedError m)) :
  lazy_load (w, self)
  = (Err (NotImplementedError "DaxaSafeLoader does not implement lazy_load()"),
     (w, self)).
Proof.
  unfold lazy_load. cbv beta iota zeta delta [sbind get_self fst snd].
  rewrite H. reflexivity.
Qed.

(** Witness for C6: a wrapped CSVLoader; the message does not name it. *)
Lemma lazy_load_not_implemented_message_witness :
  fst (lazy_load (Ex.w0, Ex.inst_csv))
  = Err (NotImplementedError "DaxaSafeLoader does not implement lazy_load()")
  /\ str_contains "CSVLoader" "DaxaSafeLoader does not implement lazy_load()" = false.
Proof.
  split; [|reflexivity].
  rewrite (lazy_load_not_implemented_message Ex.w0 Ex.inst_csv
             "CSVLoader does not implement lazy_load()" eq_refl).
  reflexivity.
Defined.

(* ------------------------------------------------------------------ *)
(** * Further properties of the code *)

(** ** Paths *)

(** [get_full_path] is idempotent: a path it passes through is passed
    through again, a resolved path is absolute, and an exception raised
    by the first call is raised by the composition. *)
Theorem get_full_path_idempotent (fs : fsys) (p : string) :
  (q <- get_full_path fs p ;; get_full_path fs q) = get_full_path fs p.
Proof.
  destruct (get_full_path fs p) as [q|e] eqn:Eq; simpl; [|reflexivity].
  revert Eq. unfold get_full_path at 1.
  destruct (String.eqb p "" || str_contains "://" p || is_abs p
            || str_in p ["unknown"; "-"; "in-memory"]) eqn:E.
  - intros Eq. injection Eq as <-. unfold get_full_path. rewrite E. reflexivity.
  - unfold path_resolve.
    destruct (resolve_loops _ _ _ _); [discriminate|].
    intros Eq. injection Eq as <-. unfold get_full_path, render.
    simpl is_abs. rewrite !orb_true_r. reflexivity.
Qed.

Lemma resolve_link_free (f : nat) (root : node) :
  forall rest cur, link_free root cur rest = true ->
  resolve_comps (S f) root cur rest = cur ++ rest.
Proof.
  induction rest as [|c rest IH]; intros cur H.
  - simpl. rewrite app_nil_r. reflexivity.
  - simpl in H. apply andb_prop in H as [H Hr]. apply andb_prop in H as [Hv Hl].
    destruct (valid_name_not_special c Hv) as [E1 [E2 E3]].
    simpl. rewrite E1, E2, E3. simpl.
    pose proof (IH (cur ++ [c]) Hr) as IHc. simpl in IHc.
    replace (cur ++ c :: rest) with ((cur ++ [c]) ++ rest)
      by (rewrite <- app_assoc; reflexivity).
    destruct (lookup root (cur ++ [c])) as [[]|]; try discriminate; exact IHc.
Qed.

Lemma resolve_loops_link_free (f : nat) (root : node) :
  forall rest cur, link_free root cur rest = true ->
  resolve_loops (S f) root cur rest = false.
Proof.
  induction rest as [|c rest IH]; intros cur H; [reflexivity|].
  simpl in H. apply andb_prop in H as [H Hr]. apply andb_prop in H as [Hv Hl].
  destruct (valid_name_not_special c Hv) as [E1 [E2 E3]].
  simpl. rewrite E1, E2, E3. simpl.
  pose proof (IH (cur ++ [c]) Hr) as IHc. simpl in IHc.
  destruct (lookup root (cur ++ [c])) as [[]|]; try discriminate; exact IHc.
Qed.

(** A relative path whose components are plain names, none of them a
    symbolic link (existing or not), resolves to the working directory
    followed by those components. *)
Theorem path_resolve_link_free (fs : fsys) (p : string)
  (Hrel : is_abs p = false)
  (Hfree : link_free (fs_root fs) (fs_cwd fs) (split_on "/" p) = true) :
  path_resolve fs p = Ok (render (fs_cwd fs ++ split_on "/" p)).
Proof.
  unfold path_resolve, resolve_path. rewrite Hrel.
  unfold LINK_FUEL. rewrite (resolve_loops_link_free 39 _ _ _ Hfree).
  rewrite (resolve_link_free 39 _ _ _ Hfree). reflexivity.
Qed.

Lemma path_resolve_link_free_witness :
  path_resolve Ex.fs "rel/f.txt" = Ok "/home/u/rel/f.txt".
Proof. exact (path_resolve_link_free Ex.fs "rel/f.txt" eq_refl eq_refl). Defined.

Lemma str_contains_scheme (pre rest : string) :
  str_contains "://" (pre ++ "://" ++ rest) = true.
Proof.
  induction pre as [|a pre IH]; simpl.
  - destruct rest; reflexivity.
  - simpl in IH. rewrite IH, orb_true_r. reflexivity.
Qed.

Lemma get_full_path_uri (fs : fsys) (pre rest : string) :
  get_full_path fs (pre ++ "://" ++ rest) = Ok (pre ++ "://" ++ rest)%string.
Proof.
  unfold get_full_path. rewrite str_contains_scheme, orb_true_r. reflexivity.
Qed.

(** ** Loader names and types *)

Lemma split_on_nonempty (c : ascii) (s : string) : split_on c s <> [].
Proof.
  destruct s as [|a s]; simpl; [discriminate|].
  destruct (Ascii.eqb a c); [discriminate|]. destruct (split_on c s); discriminate.
Qed.

Lemma split_on_no_char (c : ascii) (s : string) :
  has_char c s = false -> split_on c s = [s].
Proof.
  induction s as [|a s IH]; simpl; intros H; [reflexivity|].
  apply orb_false_iff in H as [Ha Hs]. rewrite Ha, (IH Hs). reflexivity.
Qed.

Lemma split_on_sep (c : ascii) (s t : string) :
  split_on c (s ++ String c t) = split_on c s ++ split_on c t.
Proof.
  induction s as [|a s IH]; simpl.
  - rewrite Ascii.eqb_refl. reflexivity.
  - destruct (Ascii.eqb a c); [rewrite IH; reflexivity|].
    rewrite IH. destruct (split_on c s) eqn:E.
    + exfalso. exact (split_on_nonempty c s E).
    + reflexivity.
Qed.

Lemma string_app_assoc (a b c : string) : ((a ++ b) ++ c = a ++ (b ++ c))%string.
Proof. induction a as [|x a IH]; simpl; [reflexivity | rewrite IH; reflexivity]. Qed.

(** The loader name [__init__] extracts from
    [str(type(loader))] is the class name, whatever the (dotted) module
    path, as long as the class name has no "." and no "'". *)
Theorem loader_name_is_class (l : Loader)
  (Hdot : has_char "." (ld_class l) = false)
  (Hquote : has_char "'" (ld_class l) = false) :
  loader_name_of l = ld_class l.
Proof.
  unfold loader_name_of, type_str, last_str.
  replace ("<class '" ++ ld_module l ++ "." ++ ld_class l ++ "'>")%string
    with (("<class '" ++ ld_module l) ++ String "." (ld_class l ++ "'>"))%string
    by (rewrite string_app_assoc; reflexivity).
  rewrite split_on_sep.
  rewrite (split_on_no_char "." (ld_class l ++ "'>")).
  2:{ clear Hquote. induction (ld_class l) as [|a s IH]; [reflexivity|].
      simpl in *. apply orb_false_iff in Hdot as [H1 H2]. rewrite H1, (IH H2).
      reflexivity. }
  rewrite last_last.
  replace (ld_class l ++ "'>")%string with (ld_class l ++ String "'" ">")%string
    by reflexivity.
  rewrite split_on_sep, (split_on_no_char _ _ Hquote). reflexivity.
Qed.

Lemma loader_name_is_class_witness :
  loader_name_of Ex.dir_loader_d = "DirectoryLoader".
Proof. exact (loader_name_is_class Ex.dir_loader_d eq_refl eq_refl). Defined.

(** [get_loader_type] only ever returns one of the four category names
    or "unknown". *)
Theorem get_loader_type_range (name : string) :
  In (get_loader_type name) ["file"; "dir"; "in-memory"; "remote_db"; "unknown"].
Proof.
  unfold get_loader_type, LOADER_TYPE_MAPPING. cbn [first_loader_type].
  destruct (str_in name file_loader); [simpl; tauto|].
  destruct (str_in name dir_loader); [simpl; tauto|].
  destruct (str_in name in_memory); [simpl; tauto|].
  destruct (str_in name remote_db); simpl; tauto.
Qed.

(** Every name of [SUPPORTED_LOADERS] gets a category other than
    "unknown": the one list of the mapping that contains it (the four
    lists are disjoint on these names). *)
Theorem supported_loaders_classified (name : string)
  (H : In name SUPPORTED_LOADERS) :
  get_loader_type name <> "unknown"
  /\ exists cat l, In (cat, l) LOADER_TYPE_MAPPING /\ In name l
     /\ get_loader_type name = cat
     /\ forall cat' l', In (cat', l') LOADER_TYPE_MAPPING -> In name l' -> cat' = cat.
Proof.
  unfold SUPPORTED_LOADERS, file_loader, dir_loader, in_memory, remote_db in H.
  simpl in H.
  repeat (destruct H as [<- | H]); try contradiction;
  (split; [vm_compute; discriminate|]);
  (let pick cat l :=
     exists cat, l; split; [unfold LOADER_TYPE_MAPPING; simpl; tauto|];
     split; [apply str_in_spec; vm_compute; reflexivity|] in
   first [ pick "file" file_loader | pick "dir" dir_loader
         | pick "in-memory" in_memory | pick "remote_db" remote_db ]);
  (split; [vm_compute; reflexivity|]);
  intros cat' l' Hc Hn; unfold LOADER_TYPE_MAPPING in Hc; simpl in Hc;
  destruct Hc as [Hc|[Hc|[Hc|[Hc|[]]]]]; injection Hc as <- <-;
  apply str_in_spec in Hn; vm_compute in Hn; first [reflexivity | discriminate Hn].
Qed.

Lemma supported_loaders_classified_witness :
  get_loader_type "CSVLoader" <> "unknown".
Proof.
  apply (proj1 (supported_loaders_classified "CSVLoader"
                  (proj1 (str_in_spec "CSVLoader" SUPPORTED_LOADERS) eq_refl))).
Defined.

(** ** File owner *)

(** [get_file_owner_from_path] never fails: it returns "unknown" or the
    name of a user of the password database; a [None] path or a path
    that does not stat gives "unknown". *)
Theorem file_owner_known_or_unknown (fs : fsys) (users : list (Z * string))
  (p : option string) :
  (get_file_owner_from_path fs users p = "unknown"
   \/ exists u, In (u, get_file_owner_from_path fs users p) users)
  /\ (p = None -> get_file_owner_from_path fs users p = "unknown")
  /\ (forall s, p = Some s -> stat_path fs s = None ->
                get_file_owner_from_path fs users p = "unknown").
Proof.
  split; [|split].
  - unfold get_file_owner_from_path.
    destruct (match p with
              | Some p0 => match stat_path fs p0 with
                           | Some (NFile _ u) | Some (NDir u _) => Some u
                           | _ => None end
              | None => None end) as [u|]; [|left; reflexivity].
    destruct (find (fun e => Z.eqb (fst e) u) users) as [[u' name]|] eqn:E;
      [|left; reflexivity].
    right. exists u'. exact (proj1 (find_some _ _ E)).
  - intros ->. reflexivity.
  - intros s -> H. unfold get_file_owner_from_path. rewrite H. reflexivity.
Qed.

(** ** [get_loader_full_path] *)

Lemma getattr_has_key (k : string) (l : Loader) (a : attr) :
  getattr k l = Ok a -> has_key k l = true.
Proof.
  unfold getattr, has_key. destruct (find _ (ld_attrs l)) as [[k' v]|] eqn:E;
    intros H; [|discriminate].
  apply existsb_exists. exists (k', v). exact (find_some _ _ E).
Qed.

Lemma getattr_str_of (k : string) (l : Loader) (s : string) :
  getattr k l = Ok (AStr s) -> getattr_str k l = Ok s.
Proof. unfold getattr_str. intros ->. reflexivity. Qed.

(** A loader with a [bucket] attribute that is an instance of neither
    [GCSFileLoader] nor [S3FileLoader] (nor of a subclass of them) gets
    the source path "-", whatever its other attributes ([source],
    [path], ...). *)
Theorem loader_full_path_bucket_dash (fs : fsys) (l : Loader)
  (Hbase : ld_is_base l = true) (Hb : has_key "bucket" l = true)
  (Hg : isinstance l "GCSFileLoader" = false)
  (Hs : isinstance l "S3FileLoader" = false) :
  get_loader_full_path fs l = Ok "-".
Proof.
  unfold get_loader_full_path. rewrite Hbase, Hb. simpl.
  rewrite Hg, Hs. reflexivity.
Qed.

Lemma loader_full_path_bucket_dash_witness :
  get_loader_full_path Ex.fs Ex.s3dir_loader = Ok "-".
Proof.
  apply loader_full_path_bucket_dash; reflexivity.
Defined.

(** The bucket URIs of an [S3FileLoader] and a [GCSFileLoader] (or of
    an instance of a subclass of them) are built as s3://bucket/key and
    gc://bucket/blob and returned unchanged, not resolved as local
    paths; the [GCSFileLoader] test comes first. *)
Theorem loader_full_path_cloud_uri (fs : fsys) (l : Loader) (b o : string)
  (Hbase : ld_is_base l = true)
  (Hb : getattr "bucket" l = Ok (AStr b)) :
  (isinstance l "GCSFileLoader" = false -> isinstance l "S3FileLoader" = true ->
     getattr "key" l = Ok (AStr o) ->
     get_loader_full_path fs l = Ok ("s3://" ++ b ++ "/" ++ o)%string)
  /\ (isinstance l "GCSFileLoader" = true -> getattr "blob" l = Ok (AStr o) ->
     get_loader_full_path fs l = Ok ("gc://" ++ b ++ "/" ++ o)%string).
Proof.
  unfold get_loader_full_path. rewrite Hbase, (getattr_has_key _ _ _ Hb). simpl.
  rewrite (getattr_str_of _ _ _ Hb). split.
  - intros Hg Hs Ho. rewrite Hg, Hs, (getattr_str_of _ _ _ Ho). simpl.
    exact (get_full_path_uri fs "s3" (b ++ "/" ++ o)).
  - intros Hg Ho. rewrite Hg, (getattr_str_of _ _ _ Ho). simpl.
    exact (get_full_path_uri fs "gc" (b ++ "/" ++ o)).
Qed.

(** Witness: a subclass [MyS3Loader] of [S3FileLoader] gets its S3 URI. *)
Lemma loader_full_path_cloud_uri_witness :
  get_loader_full_path Ex.fs Ex.my_s3_loader = Ok "s3://reports/2024/q1.pdf".
Proof.
  exact (proj1 (loader_full_path_cloud_uri Ex.fs Ex.my_s3_loader "reports"
                  "2024/q1.pdf" eq_refl eq_refl) eq_refl eq_refl eq_refl).
Defined.

Lemma no_location_keys (l : Loader) :
  (forall k, In k ["bucket"; "source"; "path"; "file_path"] -> has_key k l = false) ->
  has_key "bucket" l = false /\ has_key "source" l = false
  /\ has_key "path" l = false /\ has_key "file_path" l = false.
Proof. intros Hk. repeat split; apply Hk; simpl; tauto. Qed.

(** A loader whose only location attribute is an empty [web_paths]
    list makes [get_loader_full_path] raise [IndexError]. *)
Theorem loader_full_path_empty_web_paths (fs : fsys) (l : Loader)
  (Hbase : ld_is_base l = true)
  (Hk : forall k, In k ["bucket"; "source"; "path"; "file_path"] -> has_key k l = false)
  (Hw : getattr "web_paths" l = Ok (AList [])) :
  get_loader_full_path fs l = Err (IndexError "list index out of range").
Proof.
  destruct (no_location_keys l Hk) as [H1 [H2 [H3 H4]]].
  unfold get_loader_full_path. rewrite Hbase, H1, H2, H3, H4.
  rewrite (getattr_has_key _ _ _ Hw). simpl. rewrite Hw. reflexivity.
Qed.

Lemma loader_full_path_empty_web_paths_witness :
  get_loader_full_path Ex.fs Ex.web_loader_empty
  = Err (IndexError "list index out of range").
Proof.
  apply loader_full_path_empty_web_paths; [reflexivity | | reflexivity].
  intros k Hk. simpl in Hk.
  repeat (destruct Hk as [<- | Hk]; [reflexivity|]). contradiction.
Defined.

(** ** [_send_discover] *)

Lemma send_discover_ok (self : daxa) (w : world) :
  exists w', _send_discover self w = (Ok tt, w')
  /\ w_posts w' = ((CLASSIFIER_URL (w_host w) ++ "/app/discover")%string, app self)
                  :: w_posts w
  /\ w_uuid_next w' = w_uuid_next w /\ w_reports w' = w_reports w
  /\ w_loader_sent w' = w_loader_sent w.
Proof.
  destruct w as [fs0 us0 h0 uu0 un0 net0 posts0 reps0 ys0 ds0 ls0].
  unfold _send_discover, post_world.
  cbv beta iota zeta delta [w_net w_host w_posts].
  destruct net0 as [|[st [|] | e] rest];
    try destruct (Z.eqb st 200 || Z.eqb st 502);
    eexists; (split; [reflexivity|]); simpl; repeat split.
Qed.

(** [_send_discover] never raises: it issues exactly one request, to
    [<classifier>/app/discover] with the [App] payload, consumes one
    network outcome, and sets the class's [discover_sent] flag exactly
    when that outcome is a JSON response with status 200 or 502 (the
    flag is never cleared). *)
Theorem send_discover_effects (self : daxa) (w : world) :
  exists w', _send_discover self w = (Ok tt, w')
  /\ w_posts w' = ((CLASSIFIER_URL (w_host w) ++ "/app/discover")%string, app self)
                  :: w_posts w
  /\ w_net w' = tl (w_net w)
  /\ w_discover_sent w' = w_discover_sent w || discover_accepted (next_outcome w)
  /\ w_loader_sent w' = w_loader_sent w
  /\ w_uuid_next w' = w_uuid_next w
  /\ w_reports w' = w_reports w.
Proof.
  destruct w as [fs0 us0 h0 uu0 un0 net0 posts0 reps0 ys0 ds0 ls0].
  unfold _send_discover, post_world, next_outcome, discover_accepted.
  cbv beta iota zeta delta [w_net w_host w_posts w_discover_sent].
  destruct net0 as [|o rest].
  - eexists. split; [reflexivity|]. simpl. rewrite orb_true_r. repeat split.
  - destruct o as [st [|] | e].
    + destruct (Z.eqb st 200 || Z.eqb st 502).
      * eexists. split; [reflexivity|]. simpl. rewrite orb_true_r. repeat split.
      * eexists. split; [reflexivity|]. simpl. rewrite orb_false_r. repeat split.
    + eexists. split; [reflexivity|]. simpl. rewrite orb_false_r. repeat split.
    + eexists. split; [reflexivity|]. simpl. rewrite orb_false_r. repeat split.
Qed.

(** ** [__init__] *)

Ltac open_init :=
  unfold daxa_init, check_arg;
  cbv beta iota zeta delta [sbind sret sraise uuid4 sget slift].

(** The arguments are checked first, [app_id] before [owner]: an
    [app_id] that is not a non-empty string raises the [app_id]
    [NameError], and a valid [app_id] with such an [owner] raises the
    [owner] one; in both cases the world is left as it was (no uuid
    drawn, no request). *)
Theorem init_checks_args (l : Loader) (a o : pyval) (d : string) (w : world) :
  ((forall s, a = PStr s -> s = "") ->
     daxa_init l a o d w = (Err (NameError "No app_id is passed or invalid app_id."), w))
  /\ (forall s, a = PStr s -> s <> "" -> (forall t, o = PStr t -> t = "") ->
     daxa_init l a o d w = (Err (NameError "No owner is passed or invalid owner."), w)).
Proof.
  split.
  - intros Ha. unfold daxa_init, sbind, check_arg.
    destruct a as [s| |b]; try reflexivity.
    rewrite (Ha s eq_refl). reflexivity.
  - intros s -> Hs Ho. unfold daxa_init, sbind, check_arg.
    apply String.eqb_neq in Hs. rewrite Hs. unfold sret.
    destruct o as [t| |b]; try reflexivity.
    rewrite (Ho t eq_refl). reflexivity.
Qed.

(** A construction that raises has issued no request: the discover call
    is the last step and never raises, so every failure happens before
    it; the [discover_sent] flag is unchanged. *)
Theorem init_failure_sends_nothing (l : Loader) (a o : pyval) (d : string)
  (w w' : world) (e : exn)
  (H : daxa_init l a o d w = (Err e, w')) :
  w_posts w' = w_posts w /\ w_net w' = w_net w
  /\ w_discover_sent w' = w_discover_sent w.
Proof.
  revert H. open_init.
  destruct a as [s| |b]; [|intros H; injection H as _ <-; auto..].
  destruct (String.eqb s ""); [intros H; injection H as _ <-; auto|].
  destruct o as [t| |b]; [|intros H; injection H as _ <-; auto..].
  destruct (String.eqb t ""); [intros H; injection H as _ <-; auto|].
  cbv beta iota zeta delta [set_uuid_next w_fs w_users w_host].
  destruct (get_loader_full_path _ l) as [sp|e']; [|intros H; injection H as _ <-; auto].
  destruct (get_source_size _ (Some sp)) as [z|e']; [|intros H; injection H as _ <-; auto].
  destruct (get_runtime _) as [frt|e']; [|intros H; injection H as _ <-; auto].
  match goal with |- context [_send_discover ?x ?y] =>
    destruct (send_discover_ok x y) as [w1 [E _]]; rewrite E end.
  discriminate.
Qed.

(** Witness: the [DataFrameLoader] construction of claim C2 raises and
    sends nothing. *)
Lemma init_failure_sends_nothing_witness :
  let r := daxa_init Ex.df_loader (PStr "app") (PStr "me") "" Ex.w0 in
  fst r = Err (UnboundLocalError "size")
  /\ (w_posts (snd r) = w_posts Ex.w0 /\ w_net (snd r) = w_net Ex.w0
      /\ w_discover_sent (snd r) = w_discover_sent Ex.w0).
Proof.
  cbv zeta.
  assert (E : daxa_init Ex.df_loader (PStr "app") (PStr "me") "" Ex.w0
              = (Err (UnboundLocalError "size"),
                 snd (daxa_init Ex.df_loader (PStr "app") (PStr "me") "" Ex.w0)))
    by (vm_compute; reflexivity).
  split; [rewrite E; reflexivity|].
  exact (init_failure_sends_nothing _ _ _ _ _ _ _ E).
Defined.

(** A successful construction draws exactly one uuid4 value, which is
    its [load_id]; it starts with no documents; its [source_type] is the
    category of the extracted loader name; its [source_path] and
    [source_size] are what [get_loader_full_path] and [get_source_size]
    return; and it issues exactly one request, the discover call, whose
    [App] body carries the same [load_id].  No report is made and the
    [loader_sent] flag is untouched. *)
Theorem init_success_effects (l : Loader) (a o d : string) (w w' : world) (self : daxa)
  (H : daxa_init l (PStr a) (PStr o) d w = (Ok self, w')) :
  load_id self = w_uuid w (w_uuid_next w)
  /\ w_uuid_next w' = S (w_uuid_next w)
  /\ app_name self = a /\ owner self = o /\ docs self = []
  /\ source_type self = get_loader_type (loader_name_of l)
  /\ get_loader_full_path (w_fs w) l = Ok (source_path self)
  /\ get_source_size (w_fs w) (Some (source_path self)) = Ok (source_size self)
  /\ w_posts w' = ((CLASSIFIER_URL (w_host w) ++ "/app/discover")%string, app self)
                  :: w_posts w
  /\ (exists kv, app self = JObj kv /\ jget "load_id" kv = Some (JStr (load_id self)))
  /\ w_reports w' = w_reports w /\ w_loader_sent w' = w_loader_sent w.
Proof.
  revert H. open_init.
  destruct (String.eqb a "") eqn:Ea; [discriminate|].
  destruct (String.eqb o "") eqn:Eo; [discriminate|].
  destruct w as [fs0 us0 h0 uu0 un0 net0 posts0 reps0 ys0 ds0 ls0].
  cbv beta iota zeta delta [set_uuid_next w_fs w_users w_host w_uuid w_uuid_next
                            w_posts w_reports w_loader_sent].
  destruct (get_loader_full_path fs0 l) as [sp|e'] eqn:Esp; [|discriminate].
  destruct (get_source_size fs0 (Some sp)) as [z|e'] eqn:Ez; [|discriminate].
  destruct (get_runtime h0) as [frt|e']; [|discriminate].
  match goal with |- context [_send_discover ?x ?y] =>
    destruct (send_discover_ok x y) as [w1 [E [Hp [Hu [Hr Hl]]]]]; rewrite E end.
  intros H. injection H as <- <-. simpl in Hp, Hu, Hr, Hl |- *.
  repeat split; auto.
  eexists. split; [reflexivity|]. reflexivity.
Qed.

(** Witness: the [DirectoryLoader] over d in [Ex.w0]. *)
Lemma init_success_effects_witness :
  let r := daxa_init Ex.dir_loader_d (PStr "app") (PStr "me") "" Ex.w0 in
  let self := match fst r with Ok s => s | Err _ => Ex.inst end in
  fst r = Ok self
  /\ source_type self = get_loader_type (loader_name_of Ex.dir_loader_d)
  /\ load_id self = w_uuid Ex.w0 (w_uuid_next Ex.w0)
  /\ w_posts (snd r) = [((CLASSIFIER_URL (w_host Ex.w0) ++ "/app/discover")%string,
                         app self)].
Proof.
  cbv zeta.
  assert (E : daxa_init Ex.dir_loader_d (PStr "app") (PStr "me") "" Ex.w0
              = (Ok (match fst (daxa_init Ex.dir_loader_d (PStr "app") (PStr "me") "" Ex.w0)
                     with Ok s => s | Err _ => Ex.inst end),
                 snd (daxa_init Ex.dir_loader_d (PStr "app") (PStr "me") "" Ex.w0)))
    by (vm_compute; reflexivity).
  destruct (init_success_effects _ _ _ _ _ _ _ E)
    as [Hid [_ [_ [_ [_ [Ht [_ [_ [Hp _]]]]]]]]].
  split; [rewrite E; reflexivity|]. split; [exact Ht|]. split; [exact Hid|]. exact Hp.
Defined.

(** With valid arguments and a sized source, a process whose environment
    has no PWD cannot construct the wrapper: [get_runtime] reads
    [os.environ["PWD"]] and raises [KeyError]. *)
Theorem init_requires_pwd (l : Loader) (a o d : string) (w : world) (sp : string) (z : Z)
  (Ha : a <> "") (Ho : o <> "")
  (Hsp : get_loader_full_path (w_fs w) l = Ok sp)
  (Hz : get_source_size (w_fs w) (Some sp) = Ok z)
  (Hv : env_get "library_version" (h_runtime_env (w_host w)) <> None)
  (Hpwd : h_env_pwd (w_host w) = None) :
  fst (daxa_init l (PStr a) (PStr o) d w) = Err (KeyError "PWD").
Proof.
  open_init.
  apply String.eqb_neq in Ha, Ho. rewrite Ha, Ho.
  destruct w as [fs0 us0 h0 uu0 un0 net0 posts0 reps0 ys0 ds0 ls0].
  cbv beta iota zeta delta [set_uuid_next w_fs w_users w_host w_uuid w_uuid_next] in *.
  rewrite Hsp, Hz. unfold get_runtime. rewrite Hpwd.
  destruct (env_get "library_version" (h_runtime_env h0)); [reflexivity|].
  exfalso. apply Hv. reflexivity.
Qed.

Lemma init_requires_pwd_witness :
  fst (daxa_init Ex.dir_loader_d (PStr "app") (PStr "me") "" Ex.w_nopwd)
  = Err (KeyError "PWD").
Proof.
  apply (init_requires_pwd _ _ _ _ _ "/home/u/d" 30%Z);
    try discriminate; vm_compute; try reflexivity; discriminate.
Defined.

(** With valid arguments, wrapping a loader whose only location is an
    empty [web_paths] list raises [IndexError] from the constructor. *)
Theorem init_empty_web_paths (l : Loader) (a o d : string) (w : world)
  (Ha : a <> "") (Ho : o <> "")
  (Hbase : ld_is_base l = true)
  (Hk : forall k, In k ["bucket"; "source"; "path"; "file_path"] -> has_key k l = false)
  (Hw : getattr "web_paths" l = Ok (AList [])) :
  fst (daxa_init l (PStr a) (PStr o) d w) = Err (IndexError "list index out of range").
Proof.
  open_init.
  apply String.eqb_neq in Ha, Ho. rewrite Ha, Ho.
  destruct w as [fs0 us0 h0 uu0 un0 net0 posts0 reps0 ys0 ds0 ls0].
  cbv beta iota zeta delta [set_uuid_next w_fs w_users w_host w_uuid w_uuid_next].
  destruct (no_location_keys l Hk) as [H1 [H2 [H3 H4]]].
  unfold get_loader_full_path. rewrite Hbase, H1, H2, H3, H4.
  rewrite (getattr_has_key _ _ _ Hw). simpl. rewrite Hw. reflexivity.
Qed.

Lemma init_empty_web_paths_witness :
  fst (daxa_init Ex.web_loader_empty (PStr "app") (PStr "me") "" Ex.w0)
  = Err (IndexError "list index out of range").
Proof.
  apply init_empty_web_paths; try discriminate; try reflexivity.
  intros k Hk. simpl in Hk.
  repeat (destruct Hk as [<- | Hk]; [reflexivity|]). contradiction.
Defined.

(** ** [load] and [lazy_load] *)

(** When the wrapped loader's [load()] raises, [load] raises the same
    exception, before any report or request. *)
Theorem load_propagates_loader_error (w : world) (self : daxa) (e : exn)
  (H : ld_load (loader self) = Err e) :
  load (w, self) = (Err e, (w, self)).
Proof.
  unfold load. cbv beta iota zeta delta [sbind get_self slift fst snd].
  rewrite H. reflexivity.
Qed.

Lemma load_propagates_loader_error_witness :
  load (Ex.w0, Ex.inst_broken) = (Err (OSError "Permission denied"), (Ex.w0, Ex.inst_broken)).
Proof. exact (load_propagates_loader_error Ex.w0 Ex.inst_broken _ eq_refl). Defined.

(** An exception other than [NotImplementedError] raised by the wrapped
    loader's [lazy_load()] propagates unchanged from [lazy_load], before
    any report, yield or request. *)
Theorem lazy_load_propagates_other_error (w : world) (self : daxa) (e : exn)
  (H : ld_lazy (loader self) = Err e)
  (Hni : forall m, e <> NotImplementedError m) :
  lazy_load (w, self) = (Err e, (w, self)).
Proof.
  unfold lazy_load. cbv beta iota zeta delta [sbind get_self fst snd].
  rewrite H. destruct e; try reflexivity.
  exfalso. exact (Hni msg eq_refl).
Qed.

Lemma lazy_load_propagates_other_error_witness :
  lazy_load (Ex.w0, Ex.inst_broken)
  = (Err (OSError "Permission denied"), (Ex.w0, Ex.inst_broken)).
Proof.
  exact (lazy_load_propagates_other_error Ex.w0 Ex.inst_broken _ eq_refl
           (fun m => ltac:(discriminate))).
Defined.

Lemma send_loader_doc_quiet (le : bool) (w : world) (self : daxa) :
  exists e w', _send_loader_doc le (w, self) = (Err e, (w', self)) /\ quiet w w'.
Proof.
  unfold quiet.
  destruct w as [fs0 us0 h0 uu0 un0 net0 posts0 reps0 ys0 ds0 ls0].
  cbv beta iota zeta delta [_send_loader_doc sbind get_self wlift smodify sget slift
                            fst snd add_report w_fs w_users].
  destruct (doc_records fs0 us0 (docs self)) as [js|e].
  - destruct (validate_loader_doc_payload self js le) as [fields [Hv _]].
    rewrite Hv. do 2 eexists. split; [reflexivity|]. simpl. auto.
  - do 2 eexists. split; [reflexivity|]. simpl. auto.
Qed.

(** Neither [load] nor [lazy_load] ever issues an HTTP request or sets
    a class flag, whatever the wrapped loader does: every path through
    them raises before the loader/doc request. *)
Theorem load_lazy_load_send_nothing (w : world) (self : daxa) :
  quiet w (fst (snd (load (w, self)))) /\ quiet w (fst (snd (lazy_load (w, self)))).
Proof.
  split.
  - unfold load. cbv beta iota zeta delta [sbind get_self slift fst snd].
    destruct (ld_load (loader self)) as [ds|e]; [|unfold quiet; simpl; auto].
    unfold set_docs. cbv beta iota zeta delta [fst snd].
    destruct (send_loader_doc_quiet true w (set_docs_of ds self)) as [e [w' [Heq Hq]]].
    rewrite Heq. exact Hq.
  - unfold lazy_load. cbv beta iota zeta delta [sbind get_self fst snd].
    destruct (ld_lazy (loader self)) as [it|e].
    + unfold sret. destruct it as [|d it]; simpl lazy_loop; unfold set_docs;
        cbv beta iota zeta delta [sbind fst snd].
      * destruct (send_loader_doc_quiet true w (set_docs_of [] self))
          as [e [w' [Heq Hq]]].
        rewrite Heq. exact Hq.
      * destruct (send_loader_doc_quiet false w (set_docs_of [d] self))
          as [e [w' [Heq Hq]]].
        rewrite Heq. exact Hq.
    + unfold quiet. destruct e; simpl; auto.
Qed.

(** The per-document records of [_send_loader_doc]: when they can all
    be built there is one per document; a document without a [source]
    makes the build raise [TypeError] (from [os.path.isfile(None)]). *)
Theorem doc_records_shape (fs : fsys) (users : list (Z * string)) :
  (forall ds js, doc_records fs users ds = Ok js -> length js = length ds)
  /\ (forall d ds, meta_get "source" d = None ->
        doc_records fs users (d :: ds)
        = Err (TypeError "stat: path should be string, not NoneType")).
Proof.
  split.
  - induction ds as [|d ds IH]; intros js H; simpl in H.
    + injection H as <-. reflexivity.
    + destruct (doc_record fs users d) as [j|e]; [|discriminate].
      simpl in H. destruct (doc_records fs users ds) as [js'|e]; [|discriminate].
      injection H as <-. simpl. f_equal. apply IH. reflexivity.
  - intros d ds H. simpl. unfold doc_record. rewrite H. reflexivity.
Qed.

(** ** [get_runtime] and the [Doc] schema *)

(** When [get_runtime] succeeds, the runtime's type is "desktop" exactly
    on a Darwin system and "local" otherwise, its ip falls back to the
    resolution of localhost, its runtime is "local", its path is the
    PWD of the environment, and the framework carries the library
    version. *)
Theorem get_runtime_fields (h : host) (fw rt : json)
  (H : get_runtime h = Ok (fw, rt)) :
  exists kv, rt = JObj kv
  /\ jget "type" kv = Some (JStr (if str_contains "Darwin" (h_system h)
                                  then "desktop" else "local"))
  /\ jget "ip" kv = Some (JStr (match h_host_ip h with
                                | Some ip => ip | None => h_localhost_ip h end))
  /\ jget "runtime" kv = Some (JStr "local")
  /\ (exists p, h_env_pwd h = Some p /\ jget "path" kv = Some (JStr p))
  /\ (exists v, env_get "library_version" (h_runtime_env h) = Some v
                /\ fw = JObj [("name", JStr "langchain"); ("version", JStr v)]).
Proof.
  revert H. unfold get_runtime.
  destruct (env_get "library_version" (h_runtime_env h)) as [v|]; [|discriminate].
  destruct (h_env_pwd h) as [p|]; [|discriminate].
  simpl. intros H. injection H as <- <-.
  eexists. split; [reflexivity|]. simpl.
  repeat split; eauto.
Qed.

Lemma get_runtime_fields_witness :
  exists fw rt, get_runtime Ex.hst = Ok (fw, rt)
  /\ exists kv, rt = JObj kv /\ jget "type" kv = Some (JStr "local")
     /\ jget "ip" kv = Some (JStr "127.0.0.1").
Proof.
  pose (fw := match get_runtime Ex.hst with Ok p => fst p | Err _ => JNull end).
  pose (rt := match get_runtime Ex.hst with Ok p => snd p | Err _ => JNull end).
  assert (E : get_runtime Ex.hst = Ok (fw, rt)) by (vm_compute; reflexivity).
  exists fw, rt. split; [exact E|].
  destruct (get_runtime_fields _ _ _ E) as [kv [Hkv [Ht [Hi _]]]].
  exists kv. split; [exact Hkv|]. rewrite Ht, Hi. split; reflexivity.
Defined.

